(** * iBurBa virtual try-on client: a shallow embedding of its three screens

    The repository holds three variants of one React screen:
    - [AppOld]    : frontend/src/App_old.tsx  ([handleTryon], fetch based);
    - [AutoTryon] : the timer-driven screen   ([handleVirtualTryon], axios,
                    3-second auto trigger, [hasExecuted] latch);
    - [AuthApp]   : the session-aware screen  (login/register/logout, pricing
                    plans, usage gate).

    React state is a record, a handler is a function from the state (and the
    outcome of the awaited platform calls) to the new state and the list of
    effects it performed, in program order. *)

From Stdlib Require Import ZArith QArith Lia List Ascii String Bool.
From stdpp Require Import base option gmap strings.
Import ListNotations.

#[local] Open Scope string_scope.
#[local] Open Scope Z_scope.

(** ** JavaScript values used by the screens *)

Module JS.

(** [x || d] on an optional string: the empty string and [undefined] are
    falsy. *)
Definition truthy_str (x : option string) : bool :=
  match x with
  | Some s => negb (String.eqb s "")
  | None => false
  end.

Definition or_str (x : option string) (d : string) : string :=
  match x with
  | Some s => if String.eqb s "" then d else s
  | None => d
  end.

(** A JSON number that is only stored, compared with zero and printed. *)
Definition number := Q.

Definition truthy_num (x : option number) : bool :=
  match x with
  | Some q => negb (Qeq_bool q 0)
  | None => false
  end.

Definition or_num (x : option number) (d : number) : number :=
  match x with
  | Some q => if Qeq_bool q 0 then d else q
  | None => d
  end.

(** A template literal prints [undefined] as the word itself. *)
Definition template (x : option string) : string :=
  match x with
  | Some s => s
  | None => "undefined"
  end.

(** [s.split(sep)] for a one-character separator: the pieces between the
    separators, in order; never the empty array. *)
Fixpoint split (sep : ascii) (s : string) : list string :=
  match s with
  | EmptyString => [EmptyString]
  | String c rest =>
      if Ascii.eqb c sep then EmptyString :: split sep rest
      else match split sep rest with
           | [] => [String c EmptyString]
           | piece :: pieces => String c piece :: pieces
           end
  end.

(** *** Counters

    [daily_usage] and [daily_limit] are JavaScript numbers holding integer
    counts. An integer-valued double is written as the integer it stands
    for (an integer that is no double never sits in a state); a sum or
    difference is the exact result rounded to the nearest double, ties to
    the even mantissa (53 bits), as IEEE 754 addition does. Magnitudes stay
    below 2^1024, so no infinity arises. *)
Definition round_double (m : Z) : Z :=
  let e := Z.max 0 (Z.log2 (Z.abs m) + 1 - 53) in
  if e =? 0 then m
  else
    let q := Z.shiftr (Z.abs m) e in
    let r := Z.land (Z.abs m) (Z.ones e) in
    let half := Z.shiftl 1 (e - 1) in
    let up := if (half <? r) || ((r =? half) && Z.odd q) then 1 else 0 in
    Z.sgn m * Z.shiftl (q + up) e.

Definition add (a b : Z) : Z := round_double (a + b).
Definition sub (a b : Z) : Z := round_double (a - b).

(** [Number.isSafeInteger]. *)
Definition safe (z : Z) : Prop := - 2 ^ 53 < z < 2 ^ 53.

(** The value of an arithmetic expression: a number as above, or [NaN]
    (what [undefined - n] gives). *)
Inductive Num :=
  | Int (z : Z)
  | NaN.

(** [x === n], [x !== n] and [x <= n] against a literal: [NaN] equals
    nothing and is below nothing. *)
Definition strict_eq (x : Num) (n : Z) : bool :=
  match x with Int z => z =? n | NaN => false end.
Definition at_most (x : Num) (n : Z) : bool :=
  match x with Int z => z <=? n | NaN => false end.

(** [arr[i]]: [undefined] out of range. *)
Definition index {A} (arr : list A) (i : nat) : option A := nth_error arr i.

End JS.

(** ** Files and [FileReader.readAsDataURL] *)

Record File := mkFile {
  file_name : string;
  file_type : string;            (* MIME type reported by the browser *)
  file_bytes : list N            (* content, one number below 256 per byte *)
}.

Module Base64.

Definition alphabet : string :=
  "ABCDEFGHIJKLMNOPQRSTUVWXYZabcdefghijklmnopqrstuvwxyz0123456789+/".

Definition digit (n : N) : ascii :=
  match String.get (N.to_nat (N.land n 63)) alphabet with
  | Some c => c
  | None => "A"%char
  end.

Definition pad : ascii := "="%char.

(** RFC 4648 section 4: three bytes give four digits, a rest of one or two
    bytes is padded with [=]. *)
Fixpoint encode (bs : list N) : string :=
  match bs with
  | [] => EmptyString
  | [a] =>
      let n := N.shiftl (N.land a 255) 16 in
      String (digit (N.shiftr n 18)) (String (digit (N.shiftr n 12))
        (String pad (String pad EmptyString)))
  | [a; b] =>
      let n := N.lor (N.shiftl (N.land a 255) 16) (N.shiftl (N.land b 255) 8) in
      String (digit (N.shiftr n 18)) (String (digit (N.shiftr n 12))
        (String (digit (N.shiftr n 6)) (String pad EmptyString)))
  | a :: b :: c :: rest =>
      let n := N.lor (N.lor (N.shiftl (N.land a 255) 16)
                            (N.shiftl (N.land b 255) 8)) (N.land c 255) in
      String (digit (N.shiftr n 18)) (String (digit (N.shiftr n 12))
        (String (digit (N.shiftr n 6)) (String (digit n)
          (encode rest))))
  end.

End Base64.

(** The reader's result for a readable file, as the File API defines it:
    [data:<type>;base64,<content in base64>]. *)
Definition readAsDataURL (f : File) : string :=
  "data:" ++ file_type f ++ ";base64," ++ Base64.encode (file_bytes f).

(** [fileToBase64]: the piece after the first comma of the data URL
    ([result.split(',')[1]]); the three screens share this body. *)
Definition fileToBase64 (f : File) : option string :=
  JS.index (JS.split ","%char (readAsDataURL f)) 1.

Definition sample_jpeg : File := mkFile "me.jpg" "image/jpeg" [77%N; 97%N; 110%N].
Definition sample_png : File := mkFile "shirt.png" "image/png" [104%N; 105%N].

(** ** Effects and runs *)

(** Body and options of the POST to the try-on endpoint. A field that is
    [undefined] is left out of the JSON text. *)
Record TryonRequest := mkTryonRequest {
  req_url : string;
  req_person_image : option string;
  req_garment_image : option string;
  req_quality : option string;
  req_authorization : option string;   (* Authorization header, when set *)
  req_timeout : option Z               (* milliseconds *)
}.

(** What the result window of the timer-driven screen is given to show. *)
Record ResultPage := mkResultPage {
  page_image : string;
  page_processing_time : option JS.number;
  page_cost : option JS.number
}.

(** What a handler does to the outside world. Of the console output only
    the two lines of the auto-trigger are kept, as the marks of a timer being
    armed and of a timer firing. [ResultWindowTimeout] is the registration of
    the 500 ms timeout that will open the result window; [WindowOpen] and
    [DocumentWrite] are what that timeout does when it fires. *)
Inductive Effect :=
  | Alert (msg : string)
  | Console (msg : string)
  | PostTryon (r : TryonRequest)
  | PostAuth (url email password : string) (plan : option string)
             (authorization : option string)
  | GetJson (url : string) (authorization : option string)
  | ResultWindowTimeout (page : ResultPage)
  | WindowOpen
  | DocumentWrite (page : ResultPage).

(** An async handler either settles (its promise resolves) or hangs on an
    awaited promise that never settles; both carry the state reached and the
    effects performed so far. *)
Inductive Run (S : Type) :=
  | Settled (s : S) (log : list Effect)
  | Hung (s : S) (log : list Effect).
Arguments Settled {S} s log.
Arguments Hung {S} s log.

Definition run_state {S} (r : Run S) : S :=
  match r with Settled s _ | Hung s _ => s end.
Definition run_log {S} (r : Run S) : list Effect :=
  match r with Settled _ l | Hung _ l => l end.
Definition settled {S} (r : Run S) : bool :=
  match r with Settled _ _ => true | Hung _ _ => false end.

Definition is_post (e : Effect) : bool :=
  match e with PostTryon _ => true | _ => false end.
Definition is_alert (e : Effect) : bool :=
  match e with Alert _ => true | _ => false end.
(** The network calls to the try-on endpoint found in a log. *)
Definition posts (log : list Effect) : list Effect := List.filter is_post log.
Definition alerts (log : list Effect) : list Effect := List.filter is_alert log.

Definition present {A} (x : option A) : bool :=
  match x with Some _ => true | None => false end.

(** ** frontend/src/App_old.tsx *)

Module AppOld.

Record VirtualTryonResponse := mkResponse {
  success : bool;
  result_image : option string;
  message : option string;
  error : option string;
  debug_info : option string;
  processing_time : option JS.number;
  job_id : option string;
  is_test_mode : option bool
}.

Record State := mkState {
  personImage : option File;
  garmentImage : option File;
  personImagePreview : option string;
  garmentImagePreview : option string;
  resultImage : option string;
  loading : bool;
  st_message : string;
  st_error : string;
  showComparison : bool
}.

Definition initial : State :=
  mkState None None None None None false "" "" false.

Definition setPersonImage v s :=
  mkState v (garmentImage s) (personImagePreview s) (garmentImagePreview s)
    (resultImage s) (loading s) (st_message s) (st_error s) (showComparison s).
Definition setGarmentImage v s :=
  mkState (personImage s) v (personImagePreview s) (garmentImagePreview s)
    (resultImage s) (loading s) (st_message s) (st_error s) (showComparison s).
Definition setPersonImagePreview v s :=
  mkState (personImage s) (garmentImage s) v (garmentImagePreview s)
    (resultImage s) (loading s) (st_message s) (st_error s) (showComparison s).
Definition setGarmentImagePreview v s :=
  mkState (personImage s) (garmentImage s) (personImagePreview s) v
    (resultImage s) (loading s) (st_message s) (st_error s) (showComparison s).
Definition setResultImage v s :=
  mkState (personImage s) (garmentImage s) (personImagePreview s)
    (garmentImagePreview s) v (loading s) (st_message s) (st_error s)
    (showComparison s).
Definition setLoading v s :=
  mkState (personImage s) (garmentImage s) (personImagePreview s)
    (garmentImagePreview s) (resultImage s) v (st_message s) (st_error s)
    (showComparison s).
Definition setMessage v s :=
  mkState (personImage s) (garmentImage s) (personImagePreview s)
    (garmentImagePreview s) (resultImage s) (loading s) v (st_error s)
    (showComparison s).
Definition setError v s :=
  mkState (personImage s) (garmentImage s) (personImagePreview s)
    (garmentImagePreview s) (resultImage s) (loading s) (st_message s) v
    (showComparison s).
Definition setShowComparison v s :=
  mkState (personImage s) (garmentImage s) (personImagePreview s)
    (garmentImagePreview s) (resultImage s) (loading s) (st_message s)
    (st_error s) v.

(** What the awaited platform calls of one [handleTryon] produce. *)
Inductive BodyOutcome :=
  | JsonBody (data : VirtualTryonResponse)
  | JsonError (err_message : option string).       (* response.json() rejects *)

Inductive FetchOutcome :=
  | FetchRejected (err_message : option string)    (* no response at all *)
  | FetchResponse (status : Z) (statusText : string) (body : BodyOutcome).

Record Env := mkEnv {
  person_readable : bool;       (* does the reader's onload fire? *)
  garment_readable : bool;
  fetched : FetchOutcome;
  show_number : JS.number -> string   (* how a number prints in a template *)
}.

(** [response.ok]. *)
Definition ok (status : Z) : bool := (200 <=? status) && (status <=? 299).

Definition endpoint : string := "http://localhost:8000/api/v1/virtual-tryon".

Definition request (personBase64 garmentBase64 : option string) : TryonRequest :=
  mkTryonRequest endpoint
    (Some ("data:image/jpeg;base64," ++ JS.template personBase64))
    (Some ("data:image/jpeg;base64," ++ JS.template garmentBase64))
    None None None.

(** The [catch] and [finally] blocks. *)
Definition caught (err_message : option string) (log : list Effect)
    (s : State) : Run State :=
  Settled (setLoading false
             (setError ("네트워크 오류: " ++ JS.template err_message) s)) log.

(** The branch on the parsed body, then [finally]. *)
Definition on_data (show_number : JS.number -> string)
    (data : VirtualTryonResponse) (log : list Effect) (s : State) : Run State :=
  if success data && JS.truthy_str (result_image data) then
    let s1 := setResultImage (result_image data) s in
    let s2 := setMessage (JS.or_str (message data)
                            "가상 피팅이 완료되었습니다!") s1 in
    let s3 := setShowComparison true s2 in
    let s4 := match processing_time data with
              | Some t =>
                  if JS.truthy_num (Some t)
                  then setMessage (st_message s3 ++ " (처리 시간: "
                                   ++ show_number t ++ "초)") s3
                  else s3
              | None => s3
              end in
    let s5 := match is_test_mode data with
              | Some true => setMessage (st_message s4 ++ " [개발 모드]") s4
              | _ => s4
              end in
    Settled (setLoading false s5) log
  else
    Settled (setLoading false
               (setError (JS.or_str (error data)
                            (JS.or_str (message data)
                               "가상 피팅에 실패했습니다.")) s)) log.

Definition handleTryon (env : Env) (s : State) : Run State :=
  match personImage s, garmentImage s with
  | Some person, Some garment =>
      let s1 := setShowComparison false (setResultImage None
                  (setMessage "가상 피팅을 시작합니다..."
                     (setError "" (setLoading true s)))) in
      if negb (person_readable env) then Hung s1 []
      else if negb (garment_readable env) then Hung s1 []
      else
        let s2 := setMessage "이미지 처리 중..." s1 in
        let log := [PostTryon (request (fileToBase64 person)
                                       (fileToBase64 garment))] in
        match fetched env with
        | FetchRejected m => caught m log s2
        | FetchResponse status statusText body =>
            if negb (ok status) then
              caught (Some ("HTTP " ++ show_number env (inject_Z status)
                            ++ ": " ++ statusText)) log s2
            else match body with
                 | JsonError m => caught m log s2
                 | JsonBody data => on_data (show_number env) data log s2
                 end
        end
  | _, _ =>
      Settled (setError "인물 사진과 의상 사진을 모두 업로드해주세요." s) []
  end.

(** The submit button: rendered in the upload step, [disabled] while an
    image is missing or a request is loading. *)
Definition submit_disabled (s : State) : bool :=
  negb (present (personImage s)) || negb (present (garmentImage s)) || loading s.
Definition submit_rendered (s : State) : bool := negb (showComparison s).

Definition clickSubmit (env : Env) (s : State) : Run State :=
  if submit_rendered s && negb (submit_disabled s)
  then handleTryon env s
  else Settled s [].

(** What the render presents: the result panel and the error box. *)
Definition shows_result (s : State) : bool :=
  showComparison s && JS.truthy_str (resultImage s).
Definition shows_error (s : State) : bool := negb (String.eqb (st_error s) "").

Definition resetAll (s : State) : State :=
  setError "" (setMessage "" (setShowComparison false (setResultImage None
    (setGarmentImagePreview None (setPersonImagePreview None
      (setGarmentImage None (setPersonImage None s))))))).


(** [handlePersonImageChange] and [handleGarmentImageChange]: a change event
    without a file is ignored; the file is stored at once, its preview when
    the reader of the handler has loaded it. *)
Definition handlePersonImageChange (files : list File) (s : State) : State :=
  match files with
  | file :: _ => setPersonImage (Some file) s
  | [] => s
  end.
Definition personPreview_onload (file : File) (s : State) : State :=
  setPersonImagePreview (Some (readAsDataURL file)) s.

Definition handleGarmentImageChange (files : list File) (s : State) : State :=
  match files with
  | file :: _ => setGarmentImage (Some file) s
  | [] => s
  end.
Definition garmentPreview_onload (file : File) (s : State) : State :=
  setGarmentImagePreview (Some (readAsDataURL file)) s.

(** The two delete buttons of the upload step. *)
Definition deletePerson (s : State) : State :=
  setPersonImagePreview None (setPersonImage None s).
Definition deleteGarment (s : State) : State :=
  setGarmentImagePreview None (setGarmentImage None s).

(** [onError] of the result image. *)
Definition resultImage_onError (s : State) : State :=
  setError "결과 이미지를 로드할 수 없습니다." s.

End AppOld.

(** ** What the two axios screens share *)

#[global] Instance File_eq_dec : EqDecision File.
Proof. solve_decision. Defined.

Module Axios.

(** [interface VirtualTryonResponse], declared alike in both files. *)
Record VirtualTryonResponse := mkResponse {
  success : bool;
  result_image : option string;
  processing_time : option JS.number;
  cost : option JS.number;
  remaining_usage : option JS.number;
  error : option string
}.

(** The value a [catch (error: any)] block receives, seen through the
    three paths the screens read: [error.response?.data?.error],
    [error.response?.data?.detail] and [error.message]. A rejected file
    read (a reader event) has none of them. *)
Record Thrown := mkThrown {
  response_error : option string;
  response_detail : option string;
  thrown_message : option string
}.

Definition reader_event : Thrown := mkThrown None None None.

Inductive Outcome (A : Type) :=
  | Resolved (data : A)
  | Rejected (err : Thrown).
Arguments Resolved {A} data.
Arguments Rejected {A} err.

(** The platform side of one try-on call. *)
Record Env := mkEnv {
  person_readable : bool;       (* onload (true) or onerror (false) *)
  garment_readable : bool;
  posted : Outcome VirtualTryonResponse
}.

End Axios.

(** ** The timer-driven screen *)

Module AutoTryon.
Import Axios.

Record State := mkState {
  personFile : option File;
  garmentFile : option File;
  result : option string;
  loading : bool;
  progress : Z;
  hasExecuted : bool
}.

Definition initial : State := mkState None None None false 0 false.

Definition setPersonFile v s :=
  mkState v (garmentFile s) (result s) (loading s) (progress s) (hasExecuted s).
Definition setGarmentFile v s :=
  mkState (personFile s) v (result s) (loading s) (progress s) (hasExecuted s).
Definition setResult v s :=
  mkState (personFile s) (garmentFile s) v (loading s) (progress s) (hasExecuted s).
Definition setLoading v s :=
  mkState (personFile s) (garmentFile s) (result s) v (progress s) (hasExecuted s).
Definition setProgress v s :=
  mkState (personFile s) (garmentFile s) (result s) (loading s) v (hasExecuted s).
Definition setHasExecuted v s :=
  mkState (personFile s) (garmentFile s) (result s) (loading s) (progress s) v.

Definition endpoint : string := "http://localhost:8000/virtual-tryon".

Definition request (person garment : File) : TryonRequest :=
  mkTryonRequest endpoint (fileToBase64 person) (fileToBase64 garment)
    None None (Some 120000).

(** [handleVirtualTryon] up to its first [await]: the guard and the four
    state updates. [person] and [garment] are the files of the render that
    built the closure, [s] is the state the updates apply to. *)
Definition handleVirtualTryon_start (person garment : option File)
    (s : State) : State * list Effect * option (File * File) :=
  match person, garment with
  | Some person, Some garment =>
      (setHasExecuted true (setResult None (setProgress 0 (setLoading true s))),
       [], Some (person, garment))
  | _, _ => (s, [Alert "인물 사진과 의상 사진을 모두 선택해주세요."], None)
  end.

(** The [catch] block. *)
Definition caught (err : Thrown) : Effect :=
  if JS.truthy_str (response_error err)
  then Alert ("오류: " ++ JS.template (response_error err))
  else if JS.truthy_str (thrown_message err)
  then Alert ("오류: " ++ JS.template (thrown_message err))
  else Alert "가상 피팅 중 오류가 발생했습니다. 다시 시도해주세요.".

(** The rest of [handleVirtualTryon], run when the awaited calls have
    settled, on the state of that moment. *)
Definition handleVirtualTryon_finish (person garment : File) (env : Env)
    (s : State) : State * list Effect :=
  if negb (person_readable env && garment_readable env) then
    (setLoading false s, [caught reader_event])
  else
    let post := PostTryon (request person garment) in
    match posted env with
    | Rejected err => (setLoading false s, [post; caught err])
    | Resolved data =>
        if success data && JS.truthy_str (result_image data) then
          (setLoading false (setProgress 100 (setResult (result_image data) s)),
           [post; ResultWindowTimeout
                    (mkResultPage (JS.template (result_image data))
                       (processing_time data) (cost data))])
        else
          (setLoading false s,
           [post; Alert (JS.or_str (error data)
                           "알 수 없는 오류가 발생했습니다.")])
    end.

(** A whole call with nothing else happening in between. *)
Definition handleVirtualTryon (env : Env) (s : State) : State * list Effect :=
  match handleVirtualTryon_start (personFile s) (garmentFile s) s with
  | (s1, log1, Some (person, garment)) =>
      let '(s2, log2) := handleVirtualTryon_finish person garment env s1 in
      (s2, (log1 ++ log2)%list)
  | (s1, log1, None) => (s1, log1)
  end.

(** [handleReset] also empties the two file inputs through their refs;
    those are DOM state, outside the record. *)
Definition handleReset (s : State) : State :=
  setHasExecuted false (setProgress 0 (setResult None
    (setGarmentFile None (setPersonFile None s)))).

(** Which buttons the render shows. *)
Definition run_button (s : State) : bool :=
  negb (loading s) && negb (hasExecuted s)
  && present (personFile s) && present (garmentFile s).
Definition reset_button (s : State) : bool :=
  negb (loading s)
  && (hasExecuted s || (present (personFile s) && present (garmentFile s))).

Definition clickRun (env : Env) (s : State) : State * list Effect :=
  if run_button s then handleVirtualTryon env s else (s, []).

(** The banners and the result panel. *)
Definition shows_result (s : State) : bool := JS.truthy_str (result s).
Definition shows_failed (s : State) : bool :=
  hasExecuted s && negb (JS.truthy_str (result s)) && negb (loading s).

(** The 500 ms timeout of the success branch, when it fires:
    [window.open] is called, and the page is written only if that returned
    a window. *)
Definition openResultWindow (page : ResultPage) (opened : bool) : list Effect :=
  if opened then [WindowOpen; DocumentWrite page] else [WindowOpen].

(** The timeouts a piece of log has registered. *)
Definition scheduled (l : list Effect) : list ResultPage :=
  flat_map (fun e => match e with
                     | ResultWindowTimeout page => [page]
                     | _ => []
                     end) l.

(** *** The screen as an event system

    [timer] is the pending 3-second timeout of the auto-trigger effect with
    the files its closure holds; [inflight] the calls awaiting their
    response, oldest first; [popups] the pending 500 ms timeouts of result
    windows, oldest first (nothing ever cancels them); [log] every effect so
    far. *)
Record Sys := mkSys {
  view : State;
  timer : option (File * File);
  inflight : list (File * File);
  popups : list ResultPage;
  log : list Effect
}.

Definition boot : Sys := mkSys initial None [] [] [].

Inductive Event :=
  | SelectPerson (f : option File)     (* onChange of the person input *)
  | SelectGarment (f : option File)    (* onChange of the garment input *)
  | ClickRun                           (* the run-now button *)
  | ClickReset                         (* either reset button *)
  | TimerFire                          (* the 3 seconds have elapsed *)
  | Respond (env : Env)                (* the oldest call settles *)
  | PopupFire (opened : bool).         (* the oldest 500 ms timeout fires *)

Definition armed_msg : string := "⏰ 두 파일 모두 선택됨 - 3초 후 자동 실행".
Definition fired_msg : string := "🎯 자동 가상 피팅 실행!".

(** The dependency array of the effect. *)
Definition deps (s : State) : option File * option File * bool * bool :=
  (personFile s, garmentFile s, loading s, hasExecuted s).

(** The effect body: arm a timer when its condition holds. *)
Definition arm (s : State) : option (File * File) * list Effect :=
  match personFile s, garmentFile s with
  | Some person, Some garment =>
      if negb (loading s) && negb (hasExecuted s)
      then (Some (person, garment), [Console armed_msg])
      else (None, [])
  | _, _ => (None, [])
  end.

(** After a render: when a dependency changed the cleanup clears the
    pending timer and the effect runs again; otherwise nothing happens. *)
Definition useEffect (before : State) (pending : option (File * File))
    (after : State) : option (File * File) * list Effect :=
  if decide (deps before = deps after) then (pending, []) else arm after.

Definition rerender (old : Sys) (pending : option (File * File))
    (s : State) (calls : list (File * File)) (effects : list Effect) : Sys :=
  let '(t, armlog) := useEffect (view old) pending s in
  mkSys s t calls (popups old ++ scheduled effects)%list
    (log old ++ effects ++ armlog)%list.

Definition launch (person garment : option File) (old : Sys)
    (pending : option (File * File)) (prefix : list Effect) : Sys :=
  match handleVirtualTryon_start person garment (view old) with
  | (s1, l1, Some call) =>
      rerender old pending s1 (inflight old ++ [call])%list (prefix ++ l1)%list
  | (s1, l1, None) => rerender old pending s1 (inflight old) (prefix ++ l1)%list
  end.

Definition step (sys : Sys) (e : Event) : Sys :=
  match e with
  | SelectPerson f =>
      rerender sys (timer sys) (setPersonFile f (view sys)) (inflight sys) []
  | SelectGarment f =>
      rerender sys (timer sys) (setGarmentFile f (view sys)) (inflight sys) []
  | ClickRun =>
      if run_button (view sys)
      then launch (personFile (view sys)) (garmentFile (view sys)) sys
             (timer sys) []
      else sys
  | ClickReset =>
      if reset_button (view sys)
      then rerender sys (timer sys) (handleReset (view sys)) (inflight sys) []
      else sys
  | TimerFire =>
      match timer sys with
      | Some (person, garment) =>
          launch (Some person) (Some garment) sys None [Console fired_msg]
      | None => sys
      end
  | Respond env =>
      match inflight sys with
      | (person, garment) :: rest =>
          let '(s1, l1) :=
            handleVirtualTryon_finish person garment env (view sys) in
          rerender sys (timer sys) s1 rest l1
      | [] => sys
      end
  | PopupFire opened =>
      match popups sys with
      | page :: rest =>
          mkSys (view sys) (timer sys) (inflight sys) rest
            (log sys ++ openResultWindow page opened)%list
      | [] => sys
      end
  end.

Definition run (events : list Event) : Sys := fold_left step events boot.

Definition is_fire (e : Effect) : bool :=
  match e with
  | Console m => String.eqb m fired_msg
  | _ => false
  end.
(** How often the auto-trigger has called [handleVirtualTryon]. *)
Definition auto_fires (l : list Effect) : nat := length (List.filter is_fire l).

Definition is_reset (e : Event) : bool :=
  match e with ClickReset => true | _ => false end.
Definition resets (events : list Event) : nat := length (List.filter is_reset events).


(** The pending timer is always the one the effect would arm for the
    state on screen. *)
Definition timer_current (sys : Sys) : Prop :=
  timer sys = fst (arm (view sys)).

(** The latch as a number: 1 once a call has been made since the last
    reset. *)
Definition latch (s : State) : nat := if hasExecuted s then 1%nat else 0%nat.

(** Both files chosen, the timer fired and answered, then another person
    photo chosen. *)
Definition replaced_after_run : list Event :=
  [SelectPerson (Some sample_jpeg); SelectGarment (Some sample_png);
   TimerFire;
   Respond (Axios.mkEnv true true
              (Axios.Resolved (Axios.mkResponse true (Some "X") None None
                                 None None)));
   SelectPerson (Some sample_png)].


(** What holds of every state the screen reaches: the timer is the current
    one; a call is in flight exactly while [loading] is set, and never two;
    a loading screen has its latch set and no result; and the result slot is
    either empty with progress 0, or holds an image with progress 100 and
    the latch set. *)
Definition wellformed (sys : Sys) : Prop :=
  timer_current sys
  /\ length (inflight sys) = (if loading (view sys) then 1 else 0)%nat
  /\ (loading (view sys) = true ->
      hasExecuted (view sys) = true /\ result (view sys) = None)
  /\ ((result (view sys) = None /\ progress (view sys) = 0)
      \/ (exists img, result (view sys) = Some img
                      /\ String.eqb img "" = false
                      /\ progress (view sys) = 100
                      /\ hasExecuted (view sys) = true)).

End AutoTryon.

(** ** The session-aware screen *)

Module AuthApp.
Import Axios.

Record User := mkUser {
  id : Z;
  email : string;
  plan : string;
  daily_usage : Z
}.

Record AuthResponse := mkAuthResponse {
  access_token : string;
  token_type : string;
  auth_plan : string;
  auth_daily_usage : Z
}.

Record PricingPlan := mkPlan {
  name : string;
  price : JS.number;
  daily_limit : Z;
  features : list string
}.

Inductive View := login | register | main.

Record State := mkState {
  user : option User;
  loading : bool;
  currentView : View;
  personImage : option File;
  garmentImage : option File;
  result : option string;
  processingTime : option JS.number;
  pricingPlans : gmap string PricingPlan;
  localStorage : gmap string string
}.

(** The state of a fresh page whose storage holds [stored]. *)
Definition initial (stored : gmap string string) : State :=
  mkState None false login None None None None ∅ stored.

Definition setUser v s :=
  mkState v (loading s) (currentView s) (personImage s) (garmentImage s)
    (result s) (processingTime s) (pricingPlans s) (localStorage s).
Definition setLoading v s :=
  mkState (user s) v (currentView s) (personImage s) (garmentImage s)
    (result s) (processingTime s) (pricingPlans s) (localStorage s).
Definition setCurrentView v s :=
  mkState (user s) (loading s) v (personImage s) (garmentImage s)
    (result s) (processingTime s) (pricingPlans s) (localStorage s).
Definition setPersonImage v s :=
  mkState (user s) (loading s) (currentView s) v (garmentImage s)
    (result s) (processingTime s) (pricingPlans s) (localStorage s).
Definition setGarmentImage v s :=
  mkState (user s) (loading s) (currentView s) (personImage s) v
    (result s) (processingTime s) (pricingPlans s) (localStorage s).
Definition setResult v s :=
  mkState (user s) (loading s) (currentView s) (personImage s) (garmentImage s)
    v (processingTime s) (pricingPlans s) (localStorage s).
Definition setProcessingTime v s :=
  mkState (user s) (loading s) (currentView s) (personImage s) (garmentImage s)
    (result s) v (pricingPlans s) (localStorage s).
Definition setPricingPlans v s :=
  mkState (user s) (loading s) (currentView s) (personImage s) (garmentImage s)
    (result s) (processingTime s) v (localStorage s).
Definition setStorage v s :=
  mkState (user s) (loading s) (currentView s) (personImage s) (garmentImage s)
    (result s) (processingTime s) (pricingPlans s) v.

Definition API_BASE : string := "http://localhost:8000/api/v1".

(** The request interceptor: a truthy stored token becomes the
    [Authorization] header. *)
Definition authorization (s : State) : option string :=
  match localStorage s !! "token" with
  | Some token => if String.eqb token "" then None else Some ("Bearer " ++ token)
  | None => None
  end.

(** [fetchCurrentUser]: the request it sends, and what happens when the
    answer arrives. *)
Definition fetchCurrentUser_request (s : State) : Effect :=
  GetJson (API_BASE ++ "/auth/me") (authorization s).

Definition fetchCurrentUser_settle (answer : Outcome User) (s : State) : State :=
  match answer with
  | Resolved data => setCurrentView main (setUser (Some data) s)
  | Rejected _ => s
  end.

Definition fetchPricingPlans_settle
    (answer : Outcome (gmap string PricingPlan)) (s : State) : State :=
  match answer with
  | Resolved plans => setPricingPlans plans s
  | Rejected _ => s
  end.

Definition handleLogin (email password : string)
    (answer : Outcome AuthResponse) (s : State) : State * list Effect :=
  let s1 := setLoading true s in
  let post := PostAuth (API_BASE ++ "/auth/login") email password None
                (authorization s1) in
  match answer with
  | Resolved data =>
      let s2 := setStorage (<["token" := access_token data]> (localStorage s1)) s1 in
      let s3 := setUser (Some (mkUser 0 email (auth_plan data)
                                 (auth_daily_usage data))) s2 in
      let s4 := setCurrentView main s3 in
      (setLoading false s4, [post; fetchCurrentUser_request s4])
  | Rejected err =>
      (setLoading false s1,
       [post; Alert (JS.or_str (response_detail err) "로그인 실패")])
  end.

(** [plan] defaults to ['free'] at the call site that leaves it out; the
    register form always passes its selected plan. *)
Definition handleRegister (email password plan : string)
    (answer : Outcome AuthResponse) (s : State) : State * list Effect :=
  let s1 := setLoading true s in
  let post := PostAuth (API_BASE ++ "/auth/register") email password (Some plan)
                (authorization s1) in
  match answer with
  | Resolved data =>
      let s2 := setStorage (<["token" := access_token data]> (localStorage s1)) s1 in
      let s3 := setUser (Some (mkUser 0 email plan 0)) s2 in
      let s4 := setCurrentView main s3 in
      (setLoading false s4, [post; fetchCurrentUser_request s4])
  | Rejected err =>
      (setLoading false s1,
       [post; Alert (JS.or_str (response_detail err) "회원가입 실패")])
  end.

Definition handleLogout (s : State) : State :=
  setGarmentImage None (setPersonImage None (setResult None
    (setCurrentView login (setUser None
      (setStorage (delete "token" (localStorage s)) s))))).

Definition request (personBase64 garmentBase64 : option string) (s : State)
    : TryonRequest :=
  mkTryonRequest (API_BASE ++ "/virtual-tryon") personBase64 garmentBase64
    (Some "standard") (authorization s) None.

(** [{...user, daily_usage: user.daily_usage + 1}]. *)
Definition used (u : User) : User :=
  mkUser (id u) (email u) (plan u) (JS.add (daily_usage u) 1).

(** The body of [handleVirtualTryon] after [setLoading(true)]. [closure]
    is the [user] of the render that built the handler. *)
Definition handleVirtualTryon_finish (person garment : File)
    (closure : option User) (env : Env) (s : State) : State * list Effect :=
  let fail (err : Thrown) :=
    Alert (JS.or_str (response_detail err) "가상 피팅 오류") in
  if negb (person_readable env) then (setLoading false s, [fail reader_event])
  else if negb (garment_readable env)
  then (setLoading false s, [fail reader_event])
  else
    let post := PostTryon (request (fileToBase64 person)
                                   (fileToBase64 garment) s) in
    match posted env with
    | Rejected err => (setLoading false s, [post; fail err])
    | Resolved data =>
        if success data then
          let s1 := setResult (Some (JS.or_str (result_image data) "")) s in
          let s2 := setProcessingTime
                      (Some (JS.or_num (processing_time data) 0%Q)) s1 in
          let s3 := match closure with
                    | Some u => setUser (Some (used u)) s2
                    | None => s2
                    end in
          (setLoading false s3, [post])
        else
          (setLoading false s,
           [post; Alert (JS.or_str (error data) "가상 피팅 실패")])
    end.

Definition handleVirtualTryon (env : Env) (s : State) : State * list Effect :=
  match personImage s, garmentImage s with
  | Some person, Some garment =>
      handleVirtualTryon_finish person garment (user s) env (setLoading true s)
  | _, _ => (s, [Alert "인물 사진과 의상 사진을 모두 업로드해주세요."])
  end.

(** *** [MainApp] *)

(** The catalog is the object parsed from the pricing response. Reading a
    property of it finds the plan stored under that key, or else the member
    of that name every object inherits from [Object.prototype]. *)
Definition object_prototype : list string :=
  ["constructor"; "hasOwnProperty"; "isPrototypeOf"; "propertyIsEnumerable";
   "toLocaleString"; "toString"; "valueOf"; "__proto__";
   "__defineGetter__"; "__defineSetter__";
   "__lookupGetter__"; "__lookupSetter__"].

Definition inherited (key : string) : bool :=
  existsb (String.eqb key) object_prototype.

Inductive Member :=
  | Plan (p : PricingPlan)
  | Inherited (key : string).

Definition read (plans : gmap string PricingPlan) (key : string)
    : option Member :=
  match plans !! key with
  | Some p => Some (Plan p)
  | None => if inherited key then Some (Inherited key) else None
  end.

(** [user ? pricingPlans[user.plan] : null]. *)
Definition currentPlan (s : State) : option Member :=
  match user s with
  | Some u => read (pricingPlans s) (plan u)
  | None => None
  end.

(** An inherited member is truthy and has no [daily_limit]:
    [undefined !== -1] holds and [undefined - n] is [NaN]. *)
Definition remainingUsage (s : State) : JS.Num :=
  match currentPlan s with
  | Some (Plan p) =>
      if negb (daily_limit p =? -1)
      then JS.Int (JS.sub (daily_limit p)
                     match user s with
                     | Some u => daily_usage u
                     | None => 0
                     end)
      else JS.Int (-1)
  | Some (Inherited _) => JS.NaN
  | None => JS.Int (-1)
  end.

(** The part of the button's [disabled] that looks at the usage. *)
Definition usage_blocked (s : State) : bool :=
  JS.strict_eq (remainingUsage s) 0.

Definition submit_disabled (s : State) : bool :=
  negb (present (personImage s)) || negb (present (garmentImage s))
  || loading s || usage_blocked s.

(** The button lives in [MainApp]. *)
Definition submit_rendered (s : State) : bool :=
  match currentView s with main => true | _ => false end.

Definition clickSubmit (env : Env) (s : State) : State * list Effect :=
  if submit_rendered s && negb (submit_disabled s)
  then handleVirtualTryon env s
  else (s, []).

Definition shows_result (s : State) : bool := JS.truthy_str (result s).

(** The usage warning banner. *)
Definition usage_warning (s : State) : bool :=
  negb (JS.strict_eq (remainingUsage s) (-1)) && JS.at_most (remainingUsage s) 1.


(** The mount effect: probe [/auth/me] when a token is stored, and fetch the
    plans. *)
Definition mount (s : State) : list Effect :=
  ((match localStorage s !! "token" with
    | Some token =>
        if String.eqb token "" then [] else [fetchCurrentUser_request s]
    | None => []
    end) ++ [GetJson (API_BASE ++ "/pricing") (authorization s)])%list.

(** The retry button under the result. *)
Definition retry (s : State) : State := setResult None s.

(** One click after the other, each call settled before the next click. *)
Fixpoint clicks (envs : list Env) (s : State) : State * list Effect :=
  match envs with
  | [] => (s, [])
  | env :: rest =>
      let '(s1, l1) := clickSubmit env s in
      let '(s2, l2) := clicks rest s1 in
      (s2, (l1 ++ l2)%list)
  end.

(** An answer of the try-on endpoint that reports success. *)
Definition succeeds (env : Env) : bool :=
  person_readable env && garment_readable env
  && match posted env with
     | Resolved data => success data
     | Rejected _ => false
     end.

(** The main view of user [u] on plan [pl], both images selected, nothing
    loading. *)
Definition ready (u : User) (pl : PricingPlan) (s : State) : Prop :=
  currentView s = main
  /\ present (personImage s) = true
  /\ present (garmentImage s) = true
  /\ loading s = false
  /\ user s = Some u
  /\ pricingPlans s !! plan u = Some pl.

(** How many of [n] successful clicks the usage gate lets through. *)
Definition allowed (pl : PricingPlan) (u : User) (n : nat) : Z :=
  if daily_limit pl =? -1 then Z.of_nat n
  else Z.min (Z.of_nat n) (daily_limit pl - daily_usage u).

End AuthApp.

(** ** The three screens side by side *)

Inductive Variant := Old | Timer | Session.

Definition St (v : Variant) : Type :=
  match v with
  | Old => AppOld.State
  | Timer => AutoTryon.State
  | Session => AuthApp.State
  end.

Definition Ev (v : Variant) : Type :=
  match v with
  | Old => AppOld.Env
  | Timer | Session => Axios.Env
  end.

Definition person (v : Variant) : St v -> option File :=
  match v with
  | Old => AppOld.personImage
  | Timer => AutoTryon.personFile
  | Session => AuthApp.personImage
  end.

Definition garment (v : Variant) : St v -> option File :=
  match v with
  | Old => AppOld.garmentImage
  | Timer => AutoTryon.garmentFile
  | Session => AuthApp.garmentImage
  end.

(** The in-flight flag. *)
Definition loading (v : Variant) : St v -> bool :=
  match v with
  | Old => AppOld.loading
  | Timer => AutoTryon.loading
  | Session => AuthApp.loading
  end.

(** The result slot. *)
Definition result (v : Variant) : St v -> option string :=
  match v with
  | Old => AppOld.resultImage
  | Timer => AutoTryon.result
  | Session => AuthApp.result
  end.

Definition as_run {S} (r : S * list Effect) : Run S := Settled (fst r) (snd r).

(** The submit handler: [handleTryon] or [handleVirtualTryon]. *)
Definition submit (v : Variant) : Ev v -> St v -> Run (St v) :=
  match v with
  | Old => AppOld.handleTryon
  | Timer => fun env s => as_run (AutoTryon.handleVirtualTryon env s)
  | Session => fun env s => as_run (AuthApp.handleVirtualTryon env s)
  end.

(** A click on the button whose [onClick] is the submit handler. *)
Definition click (v : Variant) : Ev v -> St v -> Run (St v) :=
  match v with
  | Old => AppOld.clickSubmit
  | Timer => fun env s => as_run (AutoTryon.clickRun env s)
  | Session => fun env s => as_run (AuthApp.clickSubmit env s)
  end.

(** The platform calls of a run that all come back (files readable). *)
Definition readable (v : Variant) : Ev v -> bool :=
  match v with
  | Old => fun env => AppOld.person_readable env && AppOld.garment_readable env
  | Timer | Session =>
      fun env => Axios.person_readable env && Axios.garment_readable env
  end.

Inductive TryonResult :=
  | TrySuccess (resultImage : string)
  | TryFailure (errorMessage : string).

Definition failure_of (e : Effect) : list TryonResult :=
  match e with
  | Alert msg => [TryFailure msg]
  | _ => []
  end.

(** What a screen presents once a run is over: the result it renders, and
    the failure it shows (the error box of [App_old], the alerts of the run
    in the two axios screens, which keep no error in their state). *)
Definition presented (v : Variant) : Run (St v) -> list TryonResult :=
  match v with
  | Old => fun r =>
      let s := run_state r in
      ((if AppOld.shows_result s
        then [TrySuccess (JS.template (AppOld.resultImage s))] else [])
       ++ (if AppOld.shows_error s then [TryFailure (AppOld.st_error s)] else []))%list
  | Timer => fun r =>
      let s := run_state r in
      ((if AutoTryon.shows_result s
        then [TrySuccess (JS.template (AutoTryon.result s))] else [])
       ++ flat_map failure_of (run_log r))%list
  | Session => fun r =>
      let s := run_state r in
      ((if AuthApp.shows_result s
        then [TrySuccess (JS.template (AuthApp.result s))] else [])
       ++ flat_map failure_of (run_log r))%list
  end.

(** The request fields of the try-on calls in a log. *)
Definition sent_images (l : list Effect) : list (option string * option string) :=
  flat_map (fun e => match e with
                     | PostTryon r => [(req_person_image r, req_garment_image r)]
                     | _ => []
                     end) l.

(** The [Authorization] headers of the try-on calls in a log. *)
Definition sent_authorizations (l : list Effect) : list (option string) :=
  flat_map (fun e => match e with
                     | PostTryon r => [req_authorization r]
                     | _ => []
                     end) l.

(** A MIME type as browsers report it holds no comma. *)
Fixpoint comma_free (s : string) : bool :=
  match s with
  | EmptyString => true
  | String c rest => negb (Ascii.eqb c ","%char) && comma_free rest
  end.

(** A response of the session-aware screen that claims success carries an
    image. *)
Definition carries_image (env : Axios.Env) : Prop :=
  match Axios.posted env with
  | Axios.Resolved data =>
      Axios.success data = true -> JS.truthy_str (Axios.result_image data) = true
  | Axios.Rejected _ => True
  end.

(** The success response [{success: true, result_image, processing_time,
    cost}] in the two shapes the screens declare ([App_old] declares no
    [cost]). *)
Definition success_response (img : string) (t : JS.number)
    (c : option JS.number) : Axios.VirtualTryonResponse :=
  Axios.mkResponse true (Some img) (Some t) c None None.
Definition old_success_response (img : string) (t : JS.number)
    : AppOld.VirtualTryonResponse :=
  AppOld.mkResponse true (Some img) None None None (Some t) None None.

(** The user with one more use, counted as an integer. *)
Definition bump (u : AuthApp.User) : AuthApp.User :=
  AuthApp.mkUser (AuthApp.id u) (AuthApp.email u) (AuthApp.plan u)
    (AuthApp.daily_usage u + 1).

(** *** Sample data *)

Definition both_old : AppOld.State :=
  AppOld.mkState (Some sample_jpeg) (Some sample_png) None None None false "" "" false.
Definition both_timer : AutoTryon.State :=
  AutoTryon.mkState (Some sample_jpeg) (Some sample_png) None false 0 false.

Definition pro_plan : AuthApp.PricingPlan :=
  AuthApp.mkPlan "Pro" (29 # 1) 3 ["HD"].
Definition free_plan : AuthApp.PricingPlan :=
  AuthApp.mkPlan "Free" (0 # 1) 3 [].
Definition unlimited_plan : AuthApp.PricingPlan :=
  AuthApp.mkPlan "Enterprise" (99 # 1) (-1) [].
Definition catalog : gmap string AuthApp.PricingPlan :=
  <["free" := free_plan]> (<["pro" := pro_plan]>
    (<["enterprise" := unlimited_plan]> ∅)).

Definition alice (usage : Z) : AuthApp.User :=
  AuthApp.mkUser 7 "alice@example.com" "free" usage.

Definition both_session (usage : Z) (shown : option string) (busy : bool)
    : AuthApp.State :=
  AuthApp.mkState (Some (alice usage)) busy AuthApp.main (Some sample_jpeg)
    (Some sample_png) shown None catalog {["token" := "tok-alice"]}.

(** A user over the limit of the free plan, one on the unlimited plan, and
    one whose plan the catalog does not list. *)
Definition session_of (u : AuthApp.User) : AuthApp.State :=
  AuthApp.mkState (Some u) false AuthApp.main (Some sample_jpeg)
    (Some sample_png) None None catalog {["token" := "tok"]}.
Definition over_quota : AuthApp.State :=
  session_of (AuthApp.mkUser 7 "alice@example.com" "free" 5).
Definition unlimited_user : AuthApp.State :=
  session_of (AuthApp.mkUser 8 "bob@example.com" "enterprise" 40).

(** The state a finished try-on leaves behind, and a register answer in
    which the server declares another plan and usage than the form chose. *)
Definition after_success : AuthApp.State :=
  AuthApp.mkState (Some (alice 2)) false AuthApp.main (Some sample_jpeg)
    (Some sample_png) (Some "X") (Some (42 # 10)) catalog
    {["token" := "tok-alice"]}.
Definition server_says_free : AuthApp.AuthResponse :=
  AuthApp.mkAuthResponse "tok-new" "bearer" "free" 3.

Definition good_response : Axios.VirtualTryonResponse :=
  Axios.mkResponse true (Some "X") (Some (42 # 10)) (Some (1 # 10)) None None.
Definition no_face : Axios.VirtualTryonResponse :=
  Axios.mkResponse false None None None None (Some "no face detected").
Definition imageless : Axios.VirtualTryonResponse :=
  Axios.mkResponse true None (Some (42 # 10)) None None None.
Definition timeout_error : Axios.Thrown :=
  Axios.mkThrown None None (Some "timeout of 120000ms exceeded").

Definition answers (data : Axios.VirtualTryonResponse) : Axios.Env :=
  Axios.mkEnv true true (Axios.Resolved data).
Definition fails (err : Axios.Thrown) : Axios.Env :=
  Axios.mkEnv true true (Axios.Rejected err).

Definition plain_number (q : JS.number) : string := "n".
Definition old_answers (data : AppOld.VirtualTryonResponse) : AppOld.Env :=
  AppOld.mkEnv true true (AppOld.FetchResponse 200 "OK" (AppOld.JsonBody data))
    plain_number.
Definition old_good : AppOld.VirtualTryonResponse :=
  AppOld.mkResponse true (Some "X") None None None (Some (42 # 10)) None None.

(** * Properties *)

(** ** Encoding of the image payload *)

Section Encoding.

(** The test vectors of RFC 4648, section 10. *)
Example encode_rfc4648 :
  Base64.encode [] = ""
  /\ Base64.encode [102%N] = "Zg=="
  /\ Base64.encode [102%N; 111%N] = "Zm8="
  /\ Base64.encode [102%N; 111%N; 111%N] = "Zm9v"
  /\ Base64.encode [102%N; 111%N; 111%N; 98%N] = "Zm9vYg=="
  /\ Base64.encode [102%N; 111%N; 111%N; 98%N; 97%N] = "Zm9vYmE="
  /\ Base64.encode [102%N; 111%N; 111%N; 98%N; 97%N; 114%N] = "Zm9vYmFy".
Proof. repeat split. Qed.

Example fileToBase64_sample :
  readAsDataURL sample_jpeg = "data:image/jpeg;base64,TWFu"
  /\ fileToBase64 sample_jpeg = Some "TWFu".
Proof. split; reflexivity. Qed.

Lemma alphabet_comma_free (k : nat) :
  match String.get k Base64.alphabet with
  | Some c => Ascii.eqb c ","%char = false
  | None => True
  end.
Proof.
  unfold Base64.alphabet.
  do 64 (destruct k as [|k]; [reflexivity|]).
  exact I.
Qed.

Lemma digit_comma_free (n : N) : Ascii.eqb (Base64.digit n) ","%char = false.
Proof.
  unfold Base64.digit.
  pose proof (alphabet_comma_free (N.to_nat (N.land n 63))) as H.
  destruct (String.get _ Base64.alphabet); [exact H | reflexivity].
Qed.

(** Three statements at once, so that the induction can step by one byte
    while [encode] steps by three. *)
Lemma encode_comma_free_aux (bs : list N) :
  comma_free (Base64.encode bs) = true
  /\ (forall a, comma_free (Base64.encode (a :: bs)) = true)
  /\ (forall a b, comma_free (Base64.encode (a :: b :: bs)) = true).
Proof.
  induction bs as [|c bs (IH0 & IH1 & IH2)].
  - repeat split; intros; cbn [Base64.encode comma_free];
      rewrite ?digit_comma_free; reflexivity.
  - split; [apply IH1|]. split; [intros; apply IH2|].
    intros a b. cbn [Base64.encode comma_free].
    rewrite !digit_comma_free, IH0. reflexivity.
Qed.

Lemma encode_comma_free (bs : list N) : comma_free (Base64.encode bs) = true.
Proof. apply encode_comma_free_aux. Qed.

Lemma split_comma_free (s : string) :
  comma_free s = true -> JS.split ","%char s = [s].
Proof.
  induction s as [|c s IH]; [reflexivity|].
  cbn [comma_free JS.split]. intros [Hc Hs]%andb_true_iff.
  apply negb_true_iff in Hc. rewrite Hc, (IH Hs). reflexivity.
Qed.

Lemma append_cons (c : ascii) (a b : string) :
  String c a ++ b = String c (a ++ b).
Proof. reflexivity. Qed.

Lemma split_at_comma (pre rest : string) :
  comma_free pre = true ->
  JS.split ","%char (pre ++ String ","%char rest)
  = pre :: JS.split ","%char rest.
Proof.
  induction pre as [|c pre IH]; intros H.
  - reflexivity.
  - cbn [comma_free] in H. apply andb_true_iff in H as [Hc Hp].
    apply negb_true_iff in Hc.
    rewrite append_cons. cbn [JS.split]. rewrite Hc, (IH Hp). reflexivity.
Qed.

Lemma comma_free_app (a b : string) :
  comma_free (a ++ b) = comma_free a && comma_free b.
Proof.
  induction a as [|c a IH]; [reflexivity|].
  rewrite append_cons. cbn [comma_free]. rewrite IH, andb_assoc. reflexivity.
Qed.

Lemma append_assoc (a b c : string) : (a ++ b) ++ c = a ++ (b ++ c).
Proof.
  induction a as [|x a IH]; [reflexivity|].
  rewrite !append_cons, IH. reflexivity.
Qed.

(** [fileToBase64] gives the bare base64 text of the file's content. *)
Lemma fileToBase64_bare (f : File) :
  comma_free (file_type f) = true ->
  fileToBase64 f = Some (Base64.encode (file_bytes f)).
Proof.
  intros Hty. unfold fileToBase64, readAsDataURL.
  change (";base64," ++ Base64.encode (file_bytes f))
    with (";base64" ++ String ","%char (Base64.encode (file_bytes f))).
  rewrite <- !append_assoc.
  rewrite split_at_comma.
  - rewrite split_comma_free by apply encode_comma_free. reflexivity.
  - rewrite !comma_free_app, Hty. reflexivity.
Qed.

End Encoding.

(** The [catch] block of the timer-driven screen always ends in one alert. *)
Lemma caught_alert (err : Axios.Thrown) :
  exists msg, AutoTryon.caught err = Alert msg.
Proof.
  unfold AutoTryon.caught.
  destruct (JS.truthy_str (Axios.response_error err)); [eauto|].
  destruct (JS.truthy_str (Axios.thrown_message err)); eauto.
Qed.

(** C7 (as amended). With both files selected and readable, each screen
    sends one try-on request. The timer-driven and the session-aware screen
    put the bare base64 text of each file into [person_image] and
    [garment_image]; [App_old] puts the fixed prefix
    [data:image/jpeg;base64,] back in front of it. *)
Theorem payload_encoding (v : Variant) (env : Ev v) (s : St v) (p g : File) :
  person v s = Some p ->
  garment v s = Some g ->
  readable v env = true ->
  comma_free (file_type p) = true ->
  comma_free (file_type g) = true ->
  sent_images (run_log (submit v env s)) =
  match v with
  | Old =>
      [(Some ("data:image/jpeg;base64," ++ Base64.encode (file_bytes p)),
        Some ("data:image/jpeg;base64," ++ Base64.encode (file_bytes g)))]
  | Timer | Session =>
      [(Some (Base64.encode (file_bytes p)), Some (Base64.encode (file_bytes g)))]
  end.
Proof.
  intros Hp Hg Hr Tp Tg.
  pose proof (fileToBase64_bare p Tp) as Ep.
  pose proof (fileToBase64_bare g Tg) as Eg.
  destruct v; cbn [person garment readable submit St Ev] in *.
  - unfold AppOld.handleTryon. rewrite Hp, Hg.
    apply andb_true_iff in Hr as [-> ->]. cbn [negb].
    unfold AppOld.request. rewrite Ep, Eg. cbn [JS.template].
    destruct (AppOld.fetched env) as [m|status text [data|m]];
      [reflexivity| |].
    + destruct (negb (AppOld.ok status)); [reflexivity|].
      unfold AppOld.on_data.
      destruct (AppOld.success data && JS.truthy_str (AppOld.result_image data));
        reflexivity.
    + destruct (negb (AppOld.ok status)); reflexivity.
  - unfold AutoTryon.handleVirtualTryon, AutoTryon.handleVirtualTryon_start.
    rewrite Hp, Hg. unfold AutoTryon.handleVirtualTryon_finish.
    rewrite Hr. cbn [negb]. unfold AutoTryon.request. rewrite Ep, Eg.
    destruct (Axios.posted env) as [data|err];
      [|destruct (caught_alert err) as [msg ->]; reflexivity].
    destruct (Axios.success data && JS.truthy_str (Axios.result_image data));
      reflexivity.
  - unfold AuthApp.handleVirtualTryon. rewrite Hp, Hg.
    unfold AuthApp.handleVirtualTryon_finish.
    apply andb_true_iff in Hr as [-> ->]. cbn [negb].
    unfold AuthApp.request. rewrite Ep, Eg.
    destruct (Axios.posted env) as [data|err]; [|reflexivity].
    destruct (Axios.success data); reflexivity.
Qed.

Lemma payload_encoding_witness :
  sent_images (run_log (submit Session (answers good_response)
                          (both_session 1 None false)))
  = [(Some (Base64.encode (file_bytes sample_jpeg)),
      Some (Base64.encode (file_bytes sample_png)))].
Proof.
  exact (payload_encoding Session (answers good_response)
           (both_session 1 None false) sample_jpeg sample_png
           eq_refl eq_refl eq_refl eq_refl eq_refl).
Defined.

(** C7 as stated fails on [App_old]: the fields it sends are data URIs, not
    the bare base64 text. *)
Lemma old_payload_is_data_uri :
  sent_images (run_log (submit Old (old_answers old_good) both_old))
  = [(Some "data:image/jpeg;base64,TWFu", Some "data:image/jpeg;base64,aGk=")]
  /\ sent_images (run_log (submit Old (old_answers old_good) both_old))
     <> [(Some (Base64.encode (file_bytes sample_jpeg)),
          Some (Base64.encode (file_bytes sample_png)))].
Proof. split; [reflexivity | discriminate]. Qed.

(** ** The outcome of a settled submit *)

Lemma or_str_nonempty (x : option string) (d : string) :
  String.eqb d "" = false -> String.eqb (JS.or_str x d) "" = false.
Proof.
  intros Hd. unfold JS.or_str.
  destruct x as [t|]; [|exact Hd].
  destruct (String.eqb t "") eqn:E; [exact Hd | exact E].
Qed.

(** The success branch of [App_old]: the result is stored, the comparison
    step is shown, and only the message depends on the optional fields. *)
Lemma on_data_success show data log (s : AppOld.State) :
  AppOld.success data && JS.truthy_str (AppOld.result_image data) = true ->
  exists msg,
    AppOld.on_data show data log s
    = Settled (AppOld.mkState (AppOld.personImage s) (AppOld.garmentImage s)
                 (AppOld.personImagePreview s) (AppOld.garmentImagePreview s)
                 (AppOld.result_image data) false msg (AppOld.st_error s) true)
        log.
Proof.
  intros H. unfold AppOld.on_data. rewrite H.
  destruct (AppOld.processing_time data) as [t|];
    [destruct (JS.truthy_num (Some t))|];
    destruct (AppOld.is_test_mode data) as [[|]|]; eexists; reflexivity.
Qed.

Lemma on_data_failure show data log (s : AppOld.State) :
  AppOld.success data && JS.truthy_str (AppOld.result_image data) = false ->
  AppOld.on_data show data log s
  = Settled (AppOld.setLoading false
               (AppOld.setError
                  (JS.or_str (AppOld.error data)
                     (JS.or_str (AppOld.message data)
                        "가상 피팅에 실패했습니다.")) s)) log.
Proof. intros H. unfold AppOld.on_data. rewrite H. reflexivity. Qed.

(** C2 (as amended). Every submit call with both images selected comes to
    an end with the in-flight flag false, never left stuck true, whatever the
    outcome: a success response, a structured failure, a transport error, a
    thrown exception, and on the two axios screens a file that cannot be read
    as well; for [App_old] this is every call whose files can be read.
    [App_old] and the timer-driven screen clear the result when the call
    starts, so afterwards they present exactly one result: the success or
    the failure of this call. The session-aware screen keeps no failure in
    its state and does not clear the result: a call (whose success response
    carries an image) either raises exactly one alert and leaves the result
    slot as it was, so that the failure stands next to whatever was shown
    before, or raises none and presents the image of the response as the
    one result. *)
Theorem submit_outcome (v : Variant) (env : Ev v) (s : St v) (p g : File) :
  person v s = Some p ->
  garment v s = Some g ->
  match v return Ev v -> Prop with
  | Old => fun env => readable Old env = true
  | _ => fun _ => True
  end env ->
  settled (submit v env s) = true
  /\ loading v (run_state (submit v env s)) = false
  /\ match v return Ev v -> St v -> Prop with
     | Old => fun env s => exists t, presented Old (submit Old env s) = [t]
     | Timer => fun env s => exists t, presented Timer (submit Timer env s) = [t]
     | Session => fun env s =>
         carries_image env ->
         (exists msg,
            alerts (run_log (submit Session env s)) = [Alert msg]
            /\ AuthApp.result (run_state (submit Session env s))
               = AuthApp.result s
            /\ presented Session (submit Session env s)
               = ((if AuthApp.shows_result s
                   then [TrySuccess (JS.template (AuthApp.result s))]
                   else []) ++ [TryFailure msg])%list)
         \/ (alerts (run_log (submit Session env s)) = []
             /\ exists data img,
                  Axios.posted env = Axios.Resolved data
                  /\ Axios.success data = true
                  /\ Axios.result_image data = Some img
                  /\ AuthApp.result (run_state (submit Session env s))
                     = Some img
                  /\ presented Session (submit Session env s)
                     = [TrySuccess img])
     end env s.
Proof.
  intros Hp Hg Hr.
  destruct v; cbn [person garment loading submit readable St Ev] in *.
  - (* App_old *)
    unfold AppOld.handleTryon in *. rewrite Hp, Hg in *.
    apply andb_true_iff in Hr as [-> ->]. cbn [negb].
    assert (Hcaught : forall m l (s0 : AppOld.State),
      settled (AppOld.caught m l s0) = true
      /\ AppOld.loading (run_state (AppOld.caught m l s0)) = false
      /\ (AppOld.showComparison s0 = false ->
          exists t, presented Old (AppOld.caught m l s0) = [t])).
    { intros m l s0. split; [reflexivity|]. split; [reflexivity|]. intros Hc.
      unfold presented, AppOld.shows_result, AppOld.shows_error, AppOld.caught.
      cbn [run_state AppOld.setLoading AppOld.setError AppOld.showComparison
           AppOld.st_error AppOld.resultImage].
      rewrite Hc. cbn [andb]. eexists. reflexivity. }
    assert (Hc3 : forall m l (s0 : AppOld.State),
      AppOld.showComparison s0 = false ->
      settled (AppOld.caught m l s0) = true
      /\ AppOld.loading (run_state (AppOld.caught m l s0)) = false
      /\ exists t, presented Old (AppOld.caught m l s0) = [t]).
    { intros m l s0 Hc. destruct (Hcaught m l s0) as (A & B & C).
      split; [exact A|]. split; [exact B | exact (C Hc)]. }
    destruct (AppOld.fetched env) as [m|status text [data|m]].
    + apply Hc3. reflexivity.
    + destruct (negb (AppOld.ok status)); [apply Hc3; reflexivity|].
      destruct (AppOld.success data && JS.truthy_str (AppOld.result_image data))
        eqn:E.
      * destruct (on_data_success (AppOld.show_number env) data
          [PostTryon (AppOld.request (fileToBase64 p) (fileToBase64 g))]
          (AppOld.setMessage "이미지 처리 중..."
             (AppOld.setShowComparison false (AppOld.setResultImage None
                (AppOld.setMessage "가상 피팅을 시작합니다..."
                   (AppOld.setError "" (AppOld.setLoading true s)))))) E)
          as [msg ->].
        split; [reflexivity|]. split; [reflexivity|].
        apply andb_true_iff in E as [_ E].
        unfold presented, AppOld.shows_result, AppOld.shows_error.
        cbn [run_state AppOld.showComparison AppOld.resultImage AppOld.st_error
             AppOld.setMessage AppOld.setShowComparison AppOld.setResultImage
             AppOld.setError AppOld.setLoading].
        rewrite E. cbn. eexists. reflexivity.
      * rewrite on_data_failure by exact E.
        split; [reflexivity|]. split; [reflexivity|].
        unfold presented, AppOld.shows_result, AppOld.shows_error.
        cbn [run_state AppOld.showComparison AppOld.resultImage AppOld.st_error
             AppOld.setMessage AppOld.setShowComparison AppOld.setResultImage
             AppOld.setError AppOld.setLoading andb].
        rewrite or_str_nonempty by (apply or_str_nonempty; reflexivity).
        eexists. reflexivity.
    + destruct (negb (AppOld.ok status)); apply Hc3; reflexivity.
  - (* timer-driven *)
    unfold AutoTryon.handleVirtualTryon, AutoTryon.handleVirtualTryon_start.
    rewrite Hp, Hg. unfold AutoTryon.handleVirtualTryon_finish.
    destruct (negb (Axios.person_readable env && Axios.garment_readable env)).
    { destruct (caught_alert Axios.reader_event) as [msg ->].
      split; [reflexivity|]. split; [reflexivity | eexists; reflexivity]. }
    destruct (Axios.posted env) as [data|err].
    + destruct (Axios.success data && JS.truthy_str (Axios.result_image data))
        eqn:E.
      * split; [reflexivity|]. split; [reflexivity|].
        apply andb_true_iff in E as [_ E].
        unfold presented, AutoTryon.shows_result.
        cbn [as_run fst snd run_state run_log AutoTryon.result
             AutoTryon.setLoading AutoTryon.setProgress AutoTryon.setResult].
        rewrite E. eexists. reflexivity.
      * split; [reflexivity|]. split; [reflexivity | eexists; reflexivity].
    + destruct (caught_alert err) as [msg ->].
      split; [reflexivity|]. split; [reflexivity | eexists; reflexivity].
  - (* session-aware *)
    unfold carries_image.
    unfold AuthApp.handleVirtualTryon. rewrite Hp, Hg.
    unfold AuthApp.handleVirtualTryon_finish.
    destruct (negb (Axios.person_readable env)).
    { split; [reflexivity|]. split; [reflexivity|]. intros _. left.
      eexists. repeat split. }
    destruct (negb (Axios.garment_readable env)).
    { split; [reflexivity|]. split; [reflexivity|]. intros _. left.
      eexists. repeat split. }
    destruct (Axios.posted env) as [data|err].
    2:{ split; [reflexivity|]. split; [reflexivity|]. intros _. left.
        eexists. repeat split. }
    destruct (Axios.success data) eqn:E.
    2:{ split; [reflexivity|]. split; [reflexivity|]. intros _. left.
        eexists. repeat split. }
    split; [reflexivity|].
    split; [destruct (AuthApp.user s); reflexivity|].
    intros Himg. right. split; [reflexivity|].
    specialize (Himg eq_refl).
    destruct (Axios.result_image data) as [img|] eqn:Ei; [|discriminate].
    exists data, img. split; [reflexivity|]. split; [exact E|].
    split; [exact Ei|].
    pose proof Himg as Hne. cbn in Hne. apply negb_true_iff in Hne.
    unfold presented, AuthApp.shows_result.
    destruct (AuthApp.user s); cbn -[JS.add]; rewrite Hne; cbn; rewrite Hne;
      split; reflexivity.
Qed.

Lemma submit_outcome_witness :
  loading Session (run_state (submit Session (fails timeout_error)
                                (both_session 1 None false))) = false.
Proof.
  exact (proj1 (proj2 (submit_outcome Session (fails timeout_error)
                         (both_session 1 None false) sample_jpeg sample_png
                         eq_refl eq_refl I))).
Defined.

(** C2 as stated fails on the session-aware screen: a failed call leaves the
    result of an earlier call on display next to its own failure. *)
Lemma stale_result_beside_failure :
  settled (submit Session (fails timeout_error)
             (both_session 1 (Some "old") false)) = true
  /\ presented Session (submit Session (fails timeout_error)
                          (both_session 1 (Some "old") false))
     = [TrySuccess "old"; TryFailure "가상 피팅 오류"]
  /\ ~ (exists t, presented Session (submit Session (fails timeout_error)
                                       (both_session 1 (Some "old") false))
                  = [t]).
Proof.
  split; [reflexivity|]. split; [reflexivity|].
  intros [t H]. discriminate H.
Qed.

(** [App_old] reads its files without an [onerror] handler: an unreadable
    file leaves the call pending with the in-flight flag set. *)
Remark old_unreadable_file_hangs (env : AppOld.Env) (s : AppOld.State) (p g : File) :
  AppOld.personImage s = Some p ->
  AppOld.garmentImage s = Some g ->
  AppOld.person_readable env && AppOld.garment_readable env = false ->
  settled (AppOld.handleTryon env s) = false
  /\ AppOld.loading (run_state (AppOld.handleTryon env s)) = true
  /\ run_log (AppOld.handleTryon env s) = [].
Proof.
  intros Hp Hg Hr. unfold AppOld.handleTryon. rewrite Hp, Hg.
  destruct (AppOld.person_readable env); [|repeat split].
  destruct (AppOld.garment_readable env); [discriminate | repeat split].
Qed.

(** ** Structured failures and the success without an image *)

(** A response with [success: false] and an error text is a failure that
    carries that text, on every screen. *)
Lemma structured_failure (v : Variant) (s : St v) (p g : File) (e : string)
    (show : JS.number -> string) (rest : option JS.number) (m : option string) :
  person v s = Some p ->
  garment v s = Some g ->
  String.eqb e "" = false ->
  match v return St v -> Prop with
  | Old => fun s =>
      presented Old (submit Old
        (AppOld.mkEnv true true
           (AppOld.FetchResponse 200 "OK"
              (AppOld.JsonBody (AppOld.mkResponse false None m (Some e) None
                                  rest None None))) show) s)
      = [TryFailure e]
  | Timer => fun s =>
      presented Timer (submit Timer
        (answers (Axios.mkResponse false None rest rest rest (Some e))) s)
      = [TryFailure e]
  | Session => fun s =>
      alerts (run_log (submit Session
        (answers (Axios.mkResponse false None rest rest rest (Some e))) s))
      = [Alert e]
  end s.
Proof.
  intros Hp Hg He.
  destruct v; cbn [person garment submit St Ev] in *.
  - unfold AppOld.handleTryon. rewrite Hp, Hg.
    cbn -[String.append]. unfold presented, AppOld.shows_result, AppOld.shows_error.
    cbn -[String.append]. rewrite He. cbn. rewrite He. reflexivity.
  - unfold AutoTryon.handleVirtualTryon, AutoTryon.handleVirtualTryon_start.
    rewrite Hp, Hg. cbn. rewrite He. reflexivity.
  - unfold AuthApp.handleVirtualTryon. rewrite Hp, Hg. cbn. rewrite He.
    reflexivity.
Qed.

(** [App_old] and the timer-driven screen test [success && result_image]:
    a success without an image is a failure there. *)
Lemma imageless_success_is_failure_elsewhere :
  presented Old (submit Old
    (old_answers (AppOld.mkResponse true None None None None None None None))
    both_old)
  = [TryFailure "가상 피팅에 실패했습니다."]
  /\ presented Timer (submit Timer (answers imageless) both_timer)
     = [TryFailure "알 수 없는 오류가 발생했습니다."].
Proof. split; reflexivity. Qed.

(** C4, the failing input. The session-aware screen tests [success] alone:
    for [{success: true}] without [result_image] it stores the empty string
    as result, raises no alert, presents nothing and counts one use. *)
Theorem imageless_success_counted :
  let r := submit Session (answers imageless) (both_session 1 None false) in
  AuthApp.result (run_state r) = Some ""
  /\ alerts (run_log r) = []
  /\ presented Session r = []
  /\ AuthApp.user (run_state r) = Some (alice 2).
Proof. repeat split. Qed.

(** ** Counter arithmetic *)

Lemma round_double_exact (m : Z) :
  - 2 ^ 53 <= m <= 2 ^ 53 -> JS.round_double m = m.
Proof.
  intros H.
  destruct (Z.eq_dec (Z.abs m) (2 ^ 53)) as [E|E].
  - destruct (Z.abs_spec m) as [[_ A] | [_ A]]; rewrite A in E.
    + subst m. reflexivity.
    + assert (m = - 2 ^ 53) as -> by lia. reflexivity.
  - assert (Hlog : Z.log2 (Z.abs m) < 53).
    { destruct (Z.eq_dec (Z.abs m) 0) as [Z0|Z0]; [rewrite Z0; reflexivity|].
      apply Z.log2_lt_pow2; lia. }
    unfold JS.round_double.
    replace (Z.max 0 (Z.log2 (Z.abs m) + 1 - 53)) with 0 by lia.
    reflexivity.
Qed.

Lemma add_one_safe (z : Z) : JS.safe z -> JS.add z 1 = z + 1.
Proof. unfold JS.safe, JS.add. intros H. apply round_double_exact. lia. Qed.

Lemma sub_exact (a b : Z) :
  - 2 ^ 53 <= a - b <= 2 ^ 53 -> JS.sub a b = a - b.
Proof. unfold JS.sub. apply round_double_exact. Qed.

Lemma used_safe (u : AuthApp.User) :
  JS.safe (AuthApp.daily_usage u) -> AuthApp.used u = bump u.
Proof.
  intros H. unfold AuthApp.used, bump. rewrite (add_one_safe _ H). reflexivity.
Qed.

(** From 2^53 on the addition no longer counts: the next double is two
    away, and the tie goes to the even mantissa. *)
Example add_one_beyond_safe :
  JS.add (2 ^ 53) 1 = 2 ^ 53
  /\ JS.add (2 ^ 53 + 2) 1 = 2 ^ 53 + 4
  /\ JS.add (2 ^ 53 - 1) 1 = 2 ^ 53.
Proof. repeat split. Qed.

(** ** The success response *)

(** C8 (as amended). For the response
    [{success: true, result_image: img, processing_time: t, cost: c}] with a
    non-empty image and a non-zero time, once submit has settled:
    - [App_old] holds [img] as result and appends the time to its message
      (its response type has no cost);
    - the timer-driven screen holds [img] as result and keeps neither time
      nor cost: it registers one 500 ms timeout for a result window, and
      only if the browser opens that window are time and cost written to it;
    - the session-aware screen holds [img] as result and [t] as processing
      time, keeps no cost (the run is the same without it), and adds 1 to
      the [daily_usage] of the logged-in user: exactly 1 for every safe
      integer count, the double sum in general. *)
Theorem success_response_stored (v : Variant) (s : St v) (p g : File)
    (img : string) (t : JS.number) (c : option JS.number)
    (show : JS.number -> string) :
  person v s = Some p ->
  garment v s = Some g ->
  String.eqb img "" = false ->
  Qeq_bool t 0 = false ->
  match v return St v -> Prop with
  | Old => fun s =>
      let r := submit Old
                 (AppOld.mkEnv true true
                    (AppOld.FetchResponse 200 "OK"
                       (AppOld.JsonBody (old_success_response img t))) show) s in
      presented Old r = [TrySuccess img]
      /\ AppOld.resultImage (run_state r) = Some img
      /\ AppOld.st_message (run_state r)
         = "가상 피팅이 완료되었습니다!" ++ " (처리 시간: " ++ show t ++ "초)"
      /\ AppOld.loading (run_state r) = false
  | Timer => fun s =>
      let r := submit Timer (answers (success_response img t c)) s in
      let page := mkResultPage img (Some t) c in
      presented Timer r = [TrySuccess img]
      /\ AutoTryon.result (run_state r) = Some img
      /\ AutoTryon.loading (run_state r) = false
      /\ AutoTryon.scheduled (run_log r) = [page]
      /\ AutoTryon.openResultWindow page true = [WindowOpen; DocumentWrite page]
      /\ AutoTryon.openResultWindow page false = [WindowOpen]
      /\ r = Settled
               (AutoTryon.mkState (Some p) (Some g) (Some img) false 100 true)
               [PostTryon (AutoTryon.request p g); ResultWindowTimeout page]
  | Session => fun s =>
      let r := submit Session (answers (success_response img t c)) s in
      AuthApp.result (run_state r) = Some img
      /\ AuthApp.processingTime (run_state r) = Some t
      /\ AuthApp.user (run_state r) = option_map AuthApp.used (AuthApp.user s)
      /\ (forall u, AuthApp.user s = Some u ->
          JS.safe (AuthApp.daily_usage u) ->
          AuthApp.user (run_state r) = Some (bump u))
      /\ AuthApp.loading (run_state r) = false
      /\ alerts (run_log r) = []
      /\ r = submit Session (answers (success_response img t None)) s
  end s.
Proof.
  intros Hp Hg Himg Ht.
  destruct v; cbn [person garment submit St Ev] in *.
  - unfold AppOld.handleTryon. rewrite Hp, Hg.
    unfold AppOld.on_data, old_success_response, presented,
      AppOld.shows_result, AppOld.shows_error.
    cbn -[String.append Qeq_bool]. rewrite Himg.
    cbn -[String.append Qeq_bool]. rewrite Ht.
    cbn -[String.append Qeq_bool]. rewrite Himg.
    repeat split.
  - unfold AutoTryon.handleVirtualTryon, AutoTryon.handleVirtualTryon_start.
    rewrite Hp, Hg. cbn -[Qeq_bool]. rewrite Himg. cbn -[Qeq_bool].
    unfold presented, AutoTryon.shows_result. cbn -[Qeq_bool]. rewrite Himg.
    repeat split.
    destruct s; cbn in *. subst. reflexivity.
  - unfold AuthApp.handleVirtualTryon. rewrite Hp, Hg.
    cbn -[Qeq_bool JS.add]. rewrite Himg, Ht.
    destruct (AuthApp.user s) as [u|] eqn:Hu.
    + repeat split; try exact Hu.
      intros u' [= <-] Hsafe. cbn [AuthApp.user AuthApp.setLoading AuthApp.setUser].
      rewrite (used_safe u Hsafe). reflexivity.
    + repeat split; try exact Hu. intros u' Hu'. discriminate Hu'.
Qed.

Lemma success_response_stored_witness :
  AuthApp.result (run_state (submit Session (answers good_response)
                               (both_session 1 None false))) = Some "X"
  /\ AuthApp.processingTime (run_state (submit Session (answers good_response)
                                          (both_session 1 None false)))
     = Some (42 # 10)
  /\ AuthApp.user (run_state (submit Session (answers good_response)
                                (both_session 1 None false)))
     = Some (alice 2).
Proof.
  pose proof (success_response_stored Session (both_session 1 None false)
                sample_jpeg sample_png "X" (42 # 10) (Some (1 # 10))
                plain_number eq_refl eq_refl eq_refl eq_refl) as H.
  cbv beta in H. destruct H as (H1 & H2 & _ & H3 & _).
  split; [exact H1|]. split; [exact H2|].
  apply (H3 (alice 1) eq_refl). unfold JS.safe. cbn. lia.
Defined.

(** C8 as stated fails on the cost: the session-aware screen ends in the
    same state, with the same effects, whatever cost the response carries,
    so nothing current afterwards holds the 0.1. *)
Lemma cost_not_kept :
  ~ exists cost_of : Run AuthApp.State -> JS.number,
      cost_of (submit Session (answers (success_response "X" (42 # 10)
                                          (Some (1 # 10))))
                 (both_session 1 None false)) = (1 # 10)%Q
      /\ cost_of (submit Session (answers (success_response "X" (42 # 10)
                                             (Some (9 # 10))))
                    (both_session 1 None false)) = (9 # 10)%Q.
Proof.
  intros (cost_of & H1 & H9).
  change (submit Session (answers (success_response "X" (42 # 10) (Some (9 # 10))))
            (both_session 1 None false))
    with (submit Session (answers (success_response "X" (42 # 10) (Some (1 # 10))))
            (both_session 1 None false)) in H9.
  rewrite H1 in H9. discriminate H9.
Qed.

(** ** The usage gate *)

(** The value [MainApp] computes for a logged-in user whose plan is in the
    catalog. *)
Lemma remaining_of_plan (s : AuthApp.State) (u : AuthApp.User)
    (pl : AuthApp.PricingPlan) :
  AuthApp.user s = Some u ->
  AuthApp.pricingPlans s !! AuthApp.plan u = Some pl ->
  AuthApp.remainingUsage s
  = if AuthApp.daily_limit pl =? -1 then JS.Int (-1)
    else JS.Int (JS.sub (AuthApp.daily_limit pl) (AuthApp.daily_usage u)).
Proof.
  intros Hu Hpl.
  unfold AuthApp.remainingUsage, AuthApp.currentPlan, AuthApp.read.
  rewrite Hu, Hpl. destruct (AuthApp.daily_limit pl =? -1); reflexivity.
Qed.

(** Within the limit the gate is the one of the claim: for counts
    [0 <= daily_usage <= daily_limit], the limit a safe integer, the
    remaining usage is [max 0 (daily_limit - daily_usage)] and the button is
    blocked exactly when it is 0; on an unlimited plan it is never
    blocked. *)
Lemma gate_within_limit (s : AuthApp.State) (u : AuthApp.User)
    (pl : AuthApp.PricingPlan) :
  AuthApp.user s = Some u ->
  AuthApp.pricingPlans s !! AuthApp.plan u = Some pl ->
  (AuthApp.daily_limit pl = -1 -> AuthApp.usage_blocked s = false)
  /\ (AuthApp.daily_limit pl <> -1 ->
      0 <= AuthApp.daily_usage u <= AuthApp.daily_limit pl ->
      JS.safe (AuthApp.daily_limit pl) ->
      AuthApp.remainingUsage s
      = JS.Int (Z.max 0 (AuthApp.daily_limit pl - AuthApp.daily_usage u))
      /\ (AuthApp.usage_blocked s = true
          <-> AuthApp.daily_limit pl - AuthApp.daily_usage u = 0)).
Proof.
  intros Hu Hpl. unfold AuthApp.usage_blocked.
  rewrite (remaining_of_plan s u pl Hu Hpl). split.
  - intros ->. reflexivity.
  - intros Hl Hr Hs. apply Z.eqb_neq in Hl. rewrite Hl.
    unfold JS.safe in Hs. rewrite sub_exact by lia.
    split; [f_equal; lia | apply Z.eqb_eq].
Qed.

(** C3, the failing input. With 5 uses on a plan limited to 3 the remaining
    usage is -2, not 0: the button is not blocked and a click sends the
    request. With 4 uses it is -1, the value that stands for unlimited, and
    not even the warning shows. *)
Theorem over_quota_passes_gate :
  AuthApp.remainingUsage over_quota = JS.Int (-2)
  /\ Z.max 0 (3 - 5) = 0
  /\ AuthApp.usage_blocked over_quota = false
  /\ AuthApp.submit_disabled over_quota = false
  /\ length (posts (run_log (click Session (answers good_response) over_quota)))
     = 1%nat
  /\ AuthApp.remainingUsage
       (session_of (AuthApp.mkUser 7 "alice@example.com" "free" 4))
     = AuthApp.remainingUsage unlimited_user
  /\ AuthApp.usage_warning
       (session_of (AuthApp.mkUser 7 "alice@example.com" "free" 4)) = false.
Proof. repeat split. Qed.




(** A plan identifier that names an inherited member is absent from the
    catalog too, but [currentPlan] is then that member, not undefined: the
    remaining usage is [NaN], which blocks nothing and warns of nothing. *)
Remark inherited_member_plan :
  let s := session_of (AuthApp.mkUser 9 "carol@example.com" "constructor" 40) in
  AuthApp.pricingPlans s !! "constructor" = None
  /\ AuthApp.currentPlan s = Some (AuthApp.Inherited "constructor")
  /\ AuthApp.remainingUsage s = JS.NaN
  /\ AuthApp.usage_blocked s = false
  /\ AuthApp.usage_warning s = false.
Proof. repeat split. Qed.

(** ** Logout *)

(** What [handleLogout] resets, and what it leaves alone. *)
Lemma logout_resets (s : AuthApp.State) :
  let s' := AuthApp.handleLogout s in
  AuthApp.localStorage s' !! "token" = None
  /\ AuthApp.user s' = None
  /\ AuthApp.currentView s' = AuthApp.login
  /\ AuthApp.result s' = None
  /\ AuthApp.personImage s' = None
  /\ AuthApp.garmentImage s' = None
  /\ AuthApp.processingTime s' = AuthApp.processingTime s
  /\ AuthApp.loading s' = AuthApp.loading s
  /\ AuthApp.pricingPlans s' = AuthApp.pricingPlans s.
Proof.
  cbn. split; [apply lookup_delete_eq | repeat split].
Qed.

(** C6, the failing input. After a try-on that took 4.2 seconds, logout
    leaves that processing time in the state, while a fresh page has none. *)
Theorem logout_keeps_processing_time :
  AuthApp.processingTime (AuthApp.handleLogout after_success) = Some (42 # 10)
  /\ AuthApp.processingTime (AuthApp.initial ∅) = None
  /\ AuthApp.result (AuthApp.handleLogout after_success) = None
  /\ AuthApp.user (AuthApp.handleLogout after_success) = None.
Proof. repeat split. Qed.

(** A try-on still in flight at logout writes its result, and the user its
    closure holds, back into the cleared state when the response arrives. *)
Remark late_response_after_logout :
  let s := AuthApp.handleLogout (AuthApp.setLoading true (both_session 1 None false)) in
  let s' := fst (AuthApp.handleVirtualTryon_finish sample_jpeg sample_png
                   (Some (alice 1)) (answers good_response) s) in
  AuthApp.user s = None
  /\ AuthApp.user s' = Some (alice 2)
  /\ AuthApp.result s' = Some "X".
Proof. repeat split. Qed.

(** ** Login and register *)

(** C9 (as amended). A successful login stores the access token under the
    key [token] and fills the session with the plan and daily usage of the
    response. A successful register stores the token too, but fills the
    session with the plan chosen in the form and a daily usage of 0. Both
    then ask [/auth/me] again, and an answer to that replaces the session by
    the server's data. On failure the [detail] text of the response, when
    there is one, is alerted verbatim, and session and storage stay as they
    were. *)
Theorem auth_session (email password plan : string) (s : AuthApp.State) :
  (forall data,
     let r := AuthApp.handleLogin email password (Axios.Resolved data) s in
     AuthApp.localStorage (fst r) !! "token" = Some (AuthApp.access_token data)
     /\ AuthApp.user (fst r)
        = Some (AuthApp.mkUser 0 email (AuthApp.auth_plan data)
                  (AuthApp.auth_daily_usage data))
     /\ AuthApp.currentView (fst r) = AuthApp.main
     /\ AuthApp.loading (fst r) = false
     /\ In (AuthApp.fetchCurrentUser_request (fst r)) (snd r))
  /\ (forall data,
        let r := AuthApp.handleRegister email password plan
                   (Axios.Resolved data) s in
        AuthApp.localStorage (fst r) !! "token" = Some (AuthApp.access_token data)
        /\ AuthApp.user (fst r) = Some (AuthApp.mkUser 0 email plan 0)
        /\ AuthApp.currentView (fst r) = AuthApp.main
        /\ AuthApp.loading (fst r) = false
        /\ In (AuthApp.fetchCurrentUser_request (fst r)) (snd r))
  /\ (forall me s',
        AuthApp.user (AuthApp.fetchCurrentUser_settle (Axios.Resolved me) s')
        = Some me)
  /\ (forall err detail,
        Axios.response_detail err = Some detail ->
        String.eqb detail "" = false ->
        let r := AuthApp.handleLogin email password (Axios.Rejected err) s in
        let r' := AuthApp.handleRegister email password plan
                    (Axios.Rejected err) s in
        alerts (snd r) = [Alert detail]
        /\ alerts (snd r') = [Alert detail]
        /\ AuthApp.user (fst r) = AuthApp.user s
        /\ AuthApp.user (fst r') = AuthApp.user s
        /\ AuthApp.localStorage (fst r) = AuthApp.localStorage s
        /\ AuthApp.localStorage (fst r') = AuthApp.localStorage s
        /\ AuthApp.loading (fst r) = false
        /\ AuthApp.loading (fst r') = false).
Proof.
  split; [|split; [|split]].
  - intros data. cbn.
    split; [apply lookup_insert_eq | repeat split]. right; left; reflexivity.
  - intros data. cbn.
    split; [apply lookup_insert_eq | repeat split]. right; left; reflexivity.
  - reflexivity.
  - intros err detail Hd He. cbn. unfold JS.or_str. rewrite Hd, He.
    repeat split.
Qed.

Lemma auth_session_witness :
  alerts (snd (AuthApp.handleLogin "alice@example.com" "wrong"
                 (Axios.Rejected (Axios.mkThrown None
                                    (Some "Incorrect email or password") None))
                 (AuthApp.initial ∅)))
  = [Alert "Incorrect email or password"].
Proof.
  pose proof (auth_session "alice@example.com" "wrong" "free" (AuthApp.initial ∅))
    as (_ & _ & _ & H).
  exact (proj1 (H (Axios.mkThrown None (Some "Incorrect email or password") None)
                  "Incorrect email or password" eq_refl eq_refl)).
Defined.

(** C9 as stated fails for register: the session shows the plan of the form
    and usage 0, not the plan and usage the server declared. *)
Lemma register_ignores_server_plan :
  AuthApp.user (fst (AuthApp.handleRegister "bob@example.com" "pw" "pro"
                       (Axios.Resolved server_says_free) (AuthApp.initial ∅)))
  = Some (AuthApp.mkUser 0 "bob@example.com" "pro" 0)
  /\ AuthApp.user (fst (AuthApp.handleRegister "bob@example.com" "pw" "pro"
                          (Axios.Resolved server_says_free) (AuthApp.initial ∅)))
     <> Some (AuthApp.mkUser 0 "bob@example.com"
                (AuthApp.auth_plan server_says_free)
                (AuthApp.auth_daily_usage server_says_free)).
Proof. split; [reflexivity | discriminate]. Qed.

(** ** The auto-trigger of the timer-driven screen *)

Section AutoTrigger.
Import AutoTryon.

Lemma arm_deps (a b : State) : deps a = deps b -> arm a = arm b.
Proof.
  unfold deps, arm. intros H. injection H as -> -> -> ->. reflexivity.
Qed.

Lemma arm_sound (s : State) (p g : File) :
  fst (arm s) = Some (p, g) ->
  personFile s = Some p /\ garmentFile s = Some g
  /\ AutoTryon.loading s = false /\ hasExecuted s = false.
Proof.
  unfold arm.
  destruct (personFile s) as [p'|]; [|discriminate].
  destruct (garmentFile s) as [g'|]; [|discriminate].
  destruct (AutoTryon.loading s); [discriminate|].
  destruct (hasExecuted s); [discriminate|].
  cbn. intros [= -> ->]. repeat split.
Qed.

Lemma arm_quiet (s : State) : auto_fires (snd (arm s)) = 0%nat.
Proof.
  unfold arm.
  destruct (personFile s); [|reflexivity].
  destruct (garmentFile s); [|reflexivity].
  destruct (negb (AutoTryon.loading s) && negb (hasExecuted s)); reflexivity.
Qed.

Lemma useEffect_arm (before after : State) (pending : option (File * File)) :
  pending = fst (arm before) \/ deps before <> deps after ->
  fst (useEffect before pending after) = fst (arm after).
Proof.
  unfold useEffect. intros H.
  destruct (decide (deps before = deps after)) as [E|E]; [|reflexivity].
  destruct H as [-> | H]; [|contradiction].
  cbn. rewrite (arm_deps _ _ E). reflexivity.
Qed.

Lemma useEffect_quiet before pending after :
  auto_fires (snd (useEffect before pending after)) = 0%nat.
Proof.
  unfold useEffect.
  destruct (decide (deps before = deps after)); [reflexivity | apply arm_quiet].
Qed.

Lemma rerender_view old pending s calls l :
  view (rerender old pending s calls l) = s.
Proof. unfold rerender. destruct (useEffect _ _ _). reflexivity. Qed.

Lemma rerender_timer old pending s calls l :
  timer (rerender old pending s calls l)
  = fst (useEffect (view old) pending s).
Proof. unfold rerender. destruct (useEffect _ _ _). reflexivity. Qed.

Lemma rerender_log old pending s calls l :
  log (rerender old pending s calls l)
  = (log old ++ l ++ snd (useEffect (view old) pending s))%list.
Proof. unfold rerender. destruct (useEffect _ _ _). reflexivity. Qed.

Lemma auto_fires_app (a b : list Effect) :
  auto_fires (a ++ b) = (auto_fires a + auto_fires b)%nat.
Proof. unfold auto_fires. rewrite List.filter_app, List.length_app. reflexivity. Qed.

Lemma finish_quiet p g env (s : State) :
  auto_fires (snd (handleVirtualTryon_finish p g env s)) = 0%nat
  /\ hasExecuted (fst (handleVirtualTryon_finish p g env s)) = hasExecuted s.
Proof.
  unfold handleVirtualTryon_finish.
  destruct (negb (Axios.person_readable env && Axios.garment_readable env)).
  { destruct (caught_alert Axios.reader_event) as [m ->]. split; reflexivity. }
  destruct (Axios.posted env) as [data|err].
  - destruct (Axios.success data && JS.truthy_str (Axios.result_image data));
      split; reflexivity.
  - destruct (caught_alert err) as [m ->]. split; reflexivity.
Qed.

Lemma launch_shape (p g : File) (old : Sys) pending prefix :
  AutoTryon.loading (view old) = false ->
  let sys := launch (Some p) (Some g) old pending prefix in
  timer_current sys
  /\ hasExecuted (view sys) = true
  /\ auto_fires (log sys)
     = (auto_fires (log old) + auto_fires prefix)%nat.
Proof.
  intros Hl. unfold launch, handleVirtualTryon_start. cbn zeta.
  unfold timer_current.
  rewrite rerender_view, rerender_timer, rerender_log.
  split; [|split].
  - apply useEffect_arm. right. unfold deps. cbn. rewrite Hl. congruence.
  - reflexivity.
  - rewrite !auto_fires_app, useEffect_quiet. cbn. lia.
Qed.

Lemma step_timer_current (sys : Sys) (e : Event) :
  timer_current sys -> timer_current (step sys e).
Proof.
  intros H. unfold timer_current in *.
  destruct e as [f|f| | | |env|opened]; cbn [step].
  - rewrite rerender_view, rerender_timer. apply useEffect_arm. left. exact H.
  - rewrite rerender_view, rerender_timer. apply useEffect_arm. left. exact H.
  - destruct (run_button (view sys)) eqn:B; [|exact H].
    unfold run_button in B.
    apply andb_true_iff in B as [B Bg]. apply andb_true_iff in B as [B Bp].
    apply andb_true_iff in B as [Bl _]. apply negb_true_iff in Bl.
    destruct (personFile (view sys)) as [p|]; [|discriminate].
    destruct (garmentFile (view sys)) as [g|]; [|discriminate].
    apply (launch_shape p g sys (timer sys) [] Bl).
  - destruct (reset_button (view sys)); [|exact H].
    rewrite rerender_view, rerender_timer. apply useEffect_arm. left. exact H.
  - destruct (timer sys) as [[p g]|] eqn:T; [|rewrite T; exact H].
    symmetry in H. apply arm_sound in H as (_ & _ & Hl & _).
    apply (launch_shape p g sys None [Console fired_msg] Hl).
  - destruct (inflight sys) as [|[p g] rest]; [exact H|].
    destruct (handleVirtualTryon_finish p g env (view sys)) as [s1 l1].
    rewrite rerender_view, rerender_timer. apply useEffect_arm. left. exact H.
  - destruct (popups sys) as [|page rest]; exact H.
Qed.

Lemma step_fires (sys : Sys) (e : Event) (n : nat) :
  timer_current sys ->
  (auto_fires (log sys) <= n + latch (view sys))%nat ->
  (auto_fires (log (step sys e))
   <= n + resets [e] + latch (view (step sys e)))%nat.
Proof.
  intros T H. unfold latch in *.
  destruct e as [f|f| | | |env|opened];
    cbn [step resets is_reset List.filter length].
  - rewrite rerender_view, rerender_log, !auto_fires_app, useEffect_quiet.
    cbn. lia.
  - rewrite rerender_view, rerender_log, !auto_fires_app, useEffect_quiet.
    cbn. lia.
  - destruct (run_button (view sys)) eqn:B; [|lia].
    unfold run_button in B.
    apply andb_true_iff in B as [B Bg]. apply andb_true_iff in B as [B Bp].
    apply andb_true_iff in B as [Bl _]. apply negb_true_iff in Bl.
    destruct (personFile (view sys)) as [p|]; [|discriminate].
    destruct (garmentFile (view sys)) as [g|]; [|discriminate].
    destruct (launch_shape p g sys (timer sys) [] Bl) as (_ & -> & ->).
    cbn. destruct (hasExecuted (view sys)); lia.
  - destruct (reset_button (view sys)).
    + rewrite rerender_view, rerender_log, !auto_fires_app, useEffect_quiet.
      cbn. destruct (hasExecuted (view sys)); lia.
    + destruct (hasExecuted (view sys)); lia.
  - destruct (timer sys) as [[p g]|] eqn:E; [|lia].
    unfold timer_current in T. rewrite E in T. symmetry in T.
    apply arm_sound in T as (_ & _ & Hl & Hx).
    destruct (launch_shape p g sys None [Console fired_msg] Hl) as (_ & -> & ->).
    rewrite Hx in H. cbn. lia.
  - destruct (inflight sys) as [|[p g] rest]; [lia|].
    pose proof (finish_quiet p g env (view sys)) as [Hq Hh].
    destruct (handleVirtualTryon_finish p g env (view sys)) as [s1 l1].
    cbn [fst snd] in Hq, Hh.
    rewrite rerender_view, rerender_log, !auto_fires_app, useEffect_quiet, Hq, Hh.
    lia.
  - destruct (popups sys) as [|page rest]; [lia|].
    cbn [log view]. rewrite auto_fires_app.
    replace (auto_fires (openResultWindow page opened)) with 0%nat
      by (destruct opened; reflexivity).
    lia.
Qed.

Lemma run_from (events : list Event) (sys : Sys) (n : nat) :
  timer_current sys ->
  (auto_fires (log sys) <= n + latch (view sys))%nat ->
  timer_current (fold_left step events sys)
  /\ (auto_fires (log (fold_left step events sys))
      <= n + resets events + latch (view (fold_left step events sys)))%nat.
Proof.
  revert sys n. induction events as [|e events IH]; intros sys n T H.
  - cbn. split; [exact T | lia].
  - cbn [fold_left].
    destruct (IH (step sys e) (n + resets [e])%nat
                (step_timer_current sys e T) (step_fires sys e n T H))
      as [T' H'].
    split; [exact T'|].
    replace (resets (e :: events)) with (resets [e] + resets events)%nat
      by (unfold resets; cbn; destruct (is_reset e); reflexivity).
    lia.
Qed.

End AutoTrigger.

(** C5 (as amended). In every state the timer-driven screen can reach:
    a pending timer belongs to the pair of files on screen, with no call
    loading and the latch open, so choosing another file cancels the timer
    of the old pair; the auto-trigger has fired at most once more than the
    reset button was pressed, that is at most once between two resets;
    choosing a file leaves the [hasExecuted] latch as it is; only
    [handleReset] opens it again, and it drops both files with it. *)
Theorem auto_trigger (events : list AutoTryon.Event) :
  let sys := AutoTryon.run events in
  (forall p g,
     AutoTryon.timer sys = Some (p, g) ->
     AutoTryon.personFile (AutoTryon.view sys) = Some p
     /\ AutoTryon.garmentFile (AutoTryon.view sys) = Some g
     /\ AutoTryon.loading (AutoTryon.view sys) = false
     /\ AutoTryon.hasExecuted (AutoTryon.view sys) = false)
  /\ (forall f p g,
        (AutoTryon.timer (AutoTryon.step sys (AutoTryon.SelectPerson f))
         = Some (p, g) -> f = Some p)
        /\ (AutoTryon.timer (AutoTryon.step sys (AutoTryon.SelectGarment f))
            = Some (p, g) -> f = Some g))
  /\ (AutoTryon.auto_fires (AutoTryon.log sys)
      <= 1 + AutoTryon.resets events)%nat
  /\ (forall f,
        AutoTryon.hasExecuted
          (AutoTryon.view (AutoTryon.step sys (AutoTryon.SelectPerson f)))
        = AutoTryon.hasExecuted (AutoTryon.view sys)
        /\ AutoTryon.hasExecuted
             (AutoTryon.view (AutoTryon.step sys (AutoTryon.SelectGarment f)))
           = AutoTryon.hasExecuted (AutoTryon.view sys))
  /\ (forall s,
        AutoTryon.hasExecuted (AutoTryon.handleReset s) = false
        /\ AutoTryon.personFile (AutoTryon.handleReset s) = None
        /\ AutoTryon.garmentFile (AutoTryon.handleReset s) = None
        /\ fst (AutoTryon.arm (AutoTryon.handleReset s)) = None).
Proof.
  assert (Hboot : AutoTryon.timer_current AutoTryon.boot) by reflexivity.
  assert (H0 : (AutoTryon.auto_fires (AutoTryon.log AutoTryon.boot)
                <= 0 + AutoTryon.latch (AutoTryon.view AutoTryon.boot))%nat)
    by (cbn; lia).
  destruct (run_from events AutoTryon.boot 0 Hboot H0) as [T F].
  fold (AutoTryon.run events) in T, F. cbn zeta.
  split; [|split; [|split; [|split]]].
  - intros p g E. apply arm_sound. rewrite <- T. exact E.
  - intros f p g. split; intros E.
    + pose proof (step_timer_current _ (AutoTryon.SelectPerson f) T) as T'.
      unfold AutoTryon.timer_current in T'. rewrite E in T'. symmetry in T'.
      apply arm_sound in T' as (Hp & _).
      cbn [AutoTryon.step] in Hp. rewrite rerender_view in Hp.
      exact Hp.
    + pose proof (step_timer_current _ (AutoTryon.SelectGarment f) T) as T'.
      unfold AutoTryon.timer_current in T'. rewrite E in T'. symmetry in T'.
      apply arm_sound in T' as (_ & Hg & _).
      cbn [AutoTryon.step] in Hg. rewrite rerender_view in Hg.
      exact Hg.
  - unfold AutoTryon.latch in F.
    destruct (AutoTryon.hasExecuted (AutoTryon.view (AutoTryon.run events))); lia.
  - intros f. cbn [AutoTryon.step]. rewrite !rerender_view. split; reflexivity.
  - intros s. repeat split.
Qed.

Lemma auto_trigger_witness :
  AutoTryon.personFile
    (AutoTryon.view (AutoTryon.run [AutoTryon.SelectPerson (Some sample_jpeg);
                                    AutoTryon.SelectGarment (Some sample_png)]))
  = Some sample_jpeg
  /\ AutoTryon.hasExecuted
       (AutoTryon.view (AutoTryon.run [AutoTryon.SelectPerson (Some sample_jpeg);
                                       AutoTryon.SelectGarment (Some sample_png)]))
     = false.
Proof.
  pose proof (auto_trigger [AutoTryon.SelectPerson (Some sample_jpeg);
                            AutoTryon.SelectGarment (Some sample_png)])
    as (H & _).
  destruct (H sample_jpeg sample_png eq_refl) as (Hp & _ & _ & Hx).
  split; [exact Hp | exact Hx].
Defined.

(** C5 as stated fails on the latch: after a run, choosing another person
    photo leaves [hasExecuted] set, and no timer is armed for the new pair. *)
Lemma latch_survives_replacement :
  let sys := AutoTryon.run AutoTryon.replaced_after_run in
  AutoTryon.personFile (AutoTryon.view sys) = Some sample_png
  /\ AutoTryon.garmentFile (AutoTryon.view sys) = Some sample_png
  /\ AutoTryon.loading (AutoTryon.view sys) = false
  /\ AutoTryon.hasExecuted (AutoTryon.view sys) = true
  /\ AutoTryon.timer sys = None
  /\ AutoTryon.auto_fires (AutoTryon.log sys) = 1%nat.
Proof. repeat split. Qed.

(** ** The guard of the submit operation *)

(** C1. The submit handler is called from the submit button and, on the
    timer-driven screen, from the auto-trigger timer. With the person or the
    garment image missing, or a request in flight, neither call does
    anything: a click leaves the whole state as it is and performs no effect
    (the button is disabled or not rendered), and on the timer-driven screen
    no timer is pending, so none can fire. The handler's own guard covers the
    missing image once more: it settles without a network call and leaves
    the result and the in-flight flag unchanged. *)
Theorem submit_guard (v : Variant) (env : Ev v) (s : St v) :
  person v s = None \/ garment v s = None \/ loading v s = true ->
  click v env s = Settled s []
  /\ (person v s = None \/ garment v s = None ->
      settled (submit v env s) = true
      /\ posts (run_log (submit v env s)) = []
      /\ result v (run_state (submit v env s)) = result v s
      /\ loading v (run_state (submit v env s)) = loading v s)
  /\ match v return St v -> Prop with
     | Timer => fun s =>
         forall events,
           AutoTryon.view (AutoTryon.run events) = s ->
           AutoTryon.timer (AutoTryon.run events) = None
           /\ AutoTryon.step (AutoTryon.run events) AutoTryon.TimerFire
              = AutoTryon.run events
     | _ => fun _ => True
     end s.
Proof.
  intros H. split; [|split].
  - destruct v; cbn [click person garment loading St Ev] in *.
    + unfold AppOld.clickSubmit, AppOld.submit_disabled.
      destruct H as [-> | [-> | ->]]; cbn [present negb orb];
        rewrite ?orb_true_r, ?andb_false_r; reflexivity.
    + unfold AutoTryon.clickRun, AutoTryon.run_button.
      destruct H as [-> | [-> | ->]]; cbn [present negb andb];
        rewrite ?andb_false_r; reflexivity.
    + unfold AuthApp.clickSubmit, AuthApp.submit_disabled.
      destruct H as [-> | [-> | ->]]; cbn [present negb orb];
        rewrite ?orb_true_r, ?andb_false_r; reflexivity.
  - clear H. intros H.
    destruct v; cbn [submit person garment loading result St Ev] in *.
    + unfold AppOld.handleTryon.
      destruct H as [-> | ->]; [|destruct (AppOld.personImage s)];
        repeat split.
    + unfold AutoTryon.handleVirtualTryon, AutoTryon.handleVirtualTryon_start.
      destruct H as [-> | ->]; [|destruct (AutoTryon.personFile s)];
        repeat split.
    + unfold AuthApp.handleVirtualTryon.
      destruct H as [-> | ->]; [|destruct (AuthApp.personImage s)];
        repeat split.
  - destruct v; cbn [person garment loading St Ev] in *; [exact I| |exact I].
    intros events Hs.
    assert (T : AutoTryon.timer_current (AutoTryon.run events)).
    { apply (run_from events AutoTryon.boot 0); [reflexivity | cbn; lia]. }
    assert (Hnone : AutoTryon.timer (AutoTryon.run events) = None).
    { unfold AutoTryon.timer_current in T. rewrite T, Hs.
      unfold AutoTryon.arm.
      destruct H as [-> | [-> | ->]]; [reflexivity| |].
      - destruct (AutoTryon.personFile s); reflexivity.
      - destruct (AutoTryon.personFile s); [|reflexivity].
        destruct (AutoTryon.garmentFile s); reflexivity. }
    split; [exact Hnone|]. cbn [AutoTryon.step]. rewrite Hnone. reflexivity.
Qed.

Lemma submit_guard_witness :
  click Session (answers good_response) (both_session 1 None true)
  = Settled (both_session 1 None true) [].
Proof.
  apply (submit_guard Session (answers good_response) (both_session 1 None true)).
  right; right; reflexivity.
Defined.

(** * Further properties of the three screens *)

(** ** One submit, at most one request *)

(** A submit sends one try-on request when both files are selected and can
    be read, and none otherwise; it never sends two. *)
Theorem one_request_per_submit (v : Variant) (env : Ev v) (s : St v) :
  length (posts (run_log (submit v env s)))
  = if present (person v s) && present (garment v s) && readable v env
    then 1%nat else 0%nat.
Proof.
  destruct v; cbn [person garment readable submit St Ev] in *.
  - unfold AppOld.handleTryon.
    destruct (AppOld.personImage s) as [p|]; [|reflexivity].
    destruct (AppOld.garmentImage s) as [g|]; [|reflexivity].
    destruct (AppOld.person_readable env); [|reflexivity].
    destruct (AppOld.garment_readable env); [|reflexivity].
    cbn [present andb negb].
    destruct (AppOld.fetched env) as [m|status text [data|m]]; [reflexivity| |].
    + destruct (negb (AppOld.ok status)); [reflexivity|].
      unfold AppOld.on_data.
      destruct (AppOld.success data && JS.truthy_str (AppOld.result_image data));
        reflexivity.
    + destruct (negb (AppOld.ok status)); reflexivity.
  - unfold AutoTryon.handleVirtualTryon, AutoTryon.handleVirtualTryon_start.
    destruct (AutoTryon.personFile s) as [p|]; [|reflexivity].
    destruct (AutoTryon.garmentFile s) as [g|]; [|reflexivity].
    unfold AutoTryon.handleVirtualTryon_finish. cbn [present andb].
    destruct (Axios.person_readable env && Axios.garment_readable env).
    + cbn [negb]. destruct (Axios.posted env) as [data|err].
      * destruct (Axios.success data && JS.truthy_str (Axios.result_image data));
          reflexivity.
      * destruct (caught_alert err) as [msg ->]. reflexivity.
    + destruct (caught_alert Axios.reader_event) as [msg ->]. reflexivity.
  - unfold AuthApp.handleVirtualTryon.
    destruct (AuthApp.personImage s) as [p|]; [|reflexivity].
    destruct (AuthApp.garmentImage s) as [g|]; [|reflexivity].
    unfold AuthApp.handleVirtualTryon_finish. cbn [present andb].
    destruct (Axios.person_readable env); [|reflexivity].
    destruct (Axios.garment_readable env); [|reflexivity].
    cbn [negb andb]. destruct (Axios.posted env) as [data|err]; [|reflexivity].
    destruct (Axios.success data); reflexivity.
Qed.

(** A submit never changes which files are selected; on the session-aware
    screen it leaves token storage, view and plan catalog alone as well. *)
Theorem submit_keeps_selection (v : Variant) (env : Ev v) (s : St v) :
  person v (run_state (submit v env s)) = person v s
  /\ garment v (run_state (submit v env s)) = garment v s
  /\ match v return Ev v -> St v -> Prop with
     | Session => fun env s =>
         AuthApp.localStorage (run_state (submit Session env s))
         = AuthApp.localStorage s
         /\ AuthApp.currentView (run_state (submit Session env s))
            = AuthApp.currentView s
         /\ AuthApp.pricingPlans (run_state (submit Session env s))
            = AuthApp.pricingPlans s
     | _ => fun _ _ => True
     end env s.
Proof.
  destruct v; cbn [person garment submit St Ev] in *.
  - unfold AppOld.handleTryon.
    destruct (AppOld.personImage s) as [p|] eqn:Hp; [|repeat split; exact Hp].
    destruct (AppOld.garmentImage s) as [g|] eqn:Hg;
      [|repeat split; assumption].
    destruct (negb (AppOld.person_readable env)); [repeat split; assumption|].
    destruct (negb (AppOld.garment_readable env)); [repeat split; assumption|].
    destruct (AppOld.fetched env) as [m|status text [data|m]];
      [repeat split; assumption| |].
    + destruct (negb (AppOld.ok status)); [repeat split; assumption|].
      destruct (AppOld.success data && JS.truthy_str (AppOld.result_image data))
        eqn:E.
      * destruct (on_data_success (AppOld.show_number env) data
          [PostTryon (AppOld.request (fileToBase64 p) (fileToBase64 g))]
          (AppOld.setMessage "이미지 처리 중..."
             (AppOld.setShowComparison false (AppOld.setResultImage None
                (AppOld.setMessage "가상 피팅을 시작합니다..."
                   (AppOld.setError "" (AppOld.setLoading true s)))))) E)
          as [msg ->].
        repeat split; assumption.
      * rewrite on_data_failure by exact E. repeat split; assumption.
    + destruct (negb (AppOld.ok status)); repeat split; assumption.
  - unfold AutoTryon.handleVirtualTryon, AutoTryon.handleVirtualTryon_start.
    destruct (AutoTryon.personFile s) as [p|] eqn:Hp; [|repeat split; exact Hp].
    destruct (AutoTryon.garmentFile s) as [g|] eqn:Hg;
      [|repeat split; assumption].
    unfold AutoTryon.handleVirtualTryon_finish.
    destruct (negb (Axios.person_readable env && Axios.garment_readable env));
      [repeat split; assumption|].
    destruct (Axios.posted env) as [data|err]; [|repeat split; assumption].
    destruct (Axios.success data && JS.truthy_str (Axios.result_image data));
      repeat split; assumption.
  - unfold AuthApp.handleVirtualTryon.
    destruct (AuthApp.personImage s) as [p|] eqn:Hp; [|repeat split; exact Hp].
    destruct (AuthApp.garmentImage s) as [g|] eqn:Hg;
      [|repeat split; assumption].
    unfold AuthApp.handleVirtualTryon_finish.
    destruct (negb (Axios.person_readable env)); [repeat split; assumption|].
    destruct (negb (Axios.garment_readable env)); [repeat split; assumption|].
    destruct (Axios.posted env) as [data|err]; [|repeat split; assumption].
    destruct (Axios.success data); [|repeat split; assumption].
    destruct (AuthApp.user s); repeat split; assumption.
Qed.

(** ** [fileToBase64] *)

Lemma split_nonempty (sep : ascii) (s : string) : JS.split sep s <> [].
Proof.
  destruct s as [|c s]; cbn [JS.split]; [discriminate|].
  destruct (Ascii.eqb c sep); [discriminate|].
  destruct (JS.split sep s); discriminate.
Qed.

Lemma split_has_second (sep : ascii) (a b : string) :
  exists piece, JS.index (JS.split sep (a ++ String sep b)) 1 = Some piece.
Proof.
  induction a as [|c a [piece IH]].
  - change ("" ++ String sep b) with (String sep b). cbn [JS.split].
    rewrite Ascii.eqb_refl.
    destruct (JS.split sep b) as [|x xs] eqn:E;
      [exfalso; exact (split_nonempty sep b E)|].
    exists x. reflexivity.
  - rewrite append_cons. cbn [JS.split].
    destruct (JS.split sep (a ++ String sep b)) as [|x [|y ys]];
      try discriminate IH.
    destruct (Ascii.eqb c sep); eexists; reflexivity.
Qed.

(** The data URL of a file always has a comma, so [fileToBase64] always
    yields a text, never [undefined], whatever the file's type and content. *)
Theorem fileToBase64_defined (f : File) :
  exists text, fileToBase64 f = Some text.
Proof.
  unfold fileToBase64, readAsDataURL.
  change (";base64," ++ Base64.encode (file_bytes f))
    with (";base64" ++ String ","%char (Base64.encode (file_bytes f))).
  rewrite <- !append_assoc.
  apply split_has_second.
Qed.

(** ** A file that cannot be read *)

(** On the two axios screens a file that cannot be read ends the call at
    once: no request is sent, one alert with the screen's generic message is
    raised, and the in-flight flag is cleared. [App_old] reads without an
    error handler: there the call never settles, nothing is sent or shown,
    and the in-flight flag stays set. *)
Theorem unreadable_file_reported (v : Variant) (env : Ev v) (s : St v)
    (p g : File) :
  person v s = Some p ->
  garment v s = Some g ->
  readable v env = false ->
  match v return Ev v -> St v -> Prop with
  | Old => fun env s =>
      settled (submit Old env s) = false
      /\ run_log (submit Old env s) = []
      /\ AppOld.loading (run_state (submit Old env s)) = true
      /\ AppOld.st_error (run_state (submit Old env s)) = ""
  | Timer => fun env s =>
      run_log (submit Timer env s)
      = [Alert "가상 피팅 중 오류가 발생했습니다. 다시 시도해주세요."]
      /\ AutoTryon.loading (run_state (submit Timer env s)) = false
      /\ AutoTryon.result (run_state (submit Timer env s)) = None
  | Session => fun env s =>
      run_log (submit Session env s) = [Alert "가상 피팅 오류"]
      /\ AuthApp.loading (run_state (submit Session env s)) = false
      /\ AuthApp.result (run_state (submit Session env s)) = AuthApp.result s
      /\ AuthApp.user (run_state (submit Session env s)) = AuthApp.user s
  end env s.
Proof.
  intros Hp Hg Hr.
  destruct v; cbn [person garment readable submit St Ev] in *.
  - unfold AppOld.handleTryon. rewrite Hp, Hg.
    destruct (AppOld.person_readable env); [|repeat split].
    destruct (AppOld.garment_readable env); [discriminate | repeat split].
  - unfold AutoTryon.handleVirtualTryon, AutoTryon.handleVirtualTryon_start.
    rewrite Hp, Hg. unfold AutoTryon.handleVirtualTryon_finish. rewrite Hr.
    repeat split.
  - unfold AuthApp.handleVirtualTryon. rewrite Hp, Hg.
    unfold AuthApp.handleVirtualTryon_finish.
    destruct (Axios.person_readable env); [|repeat split].
    destruct (Axios.garment_readable env); [discriminate | repeat split].
Qed.

Lemma unreadable_file_reported_witness :
  run_log (submit Session (Axios.mkEnv true false (Axios.Resolved good_response))
             (both_session 1 None false))
  = [Alert "가상 피팅 오류"].
Proof.
  exact (proj1 (unreadable_file_reported Session
                  (Axios.mkEnv true false (Axios.Resolved good_response))
                  (both_session 1 None false) sample_jpeg sample_png
                  eq_refl eq_refl eq_refl)).
Defined.

(** ** [App_old]: statuses, the comparison step, selecting files *)

(** The effects of a [handleTryon] that got past its reads: the one
    request, for the two files selected. *)
Lemma old_submit_log (env : AppOld.Env) (s : AppOld.State) (p g : File) :
  AppOld.personImage s = Some p ->
  AppOld.garmentImage s = Some g ->
  AppOld.person_readable env && AppOld.garment_readable env = true ->
  settled (AppOld.handleTryon env s) = true
  /\ run_log (AppOld.handleTryon env s)
     = [PostTryon (AppOld.request (fileToBase64 p) (fileToBase64 g))]
  /\ AppOld.loading (run_state (AppOld.handleTryon env s)) = false.
Proof.
  intros Hp Hg Hr. unfold AppOld.handleTryon. rewrite Hp, Hg.
  apply andb_true_iff in Hr as [-> ->]. cbn [negb].
  destruct (AppOld.fetched env) as [m|status text [data|m]];
    [repeat split| |].
  - destruct (negb (AppOld.ok status)); [repeat split|].
    destruct (AppOld.success data && JS.truthy_str (AppOld.result_image data))
      eqn:E.
    + destruct (on_data_success (AppOld.show_number env) data
        [PostTryon (AppOld.request (fileToBase64 p) (fileToBase64 g))]
        (AppOld.setMessage "이미지 처리 중..."
           (AppOld.setShowComparison false (AppOld.setResultImage None
              (AppOld.setMessage "가상 피팅을 시작합니다..."
                 (AppOld.setError "" (AppOld.setLoading true s)))))) E)
        as [msg ->].
      repeat split.
    + rewrite on_data_failure by exact E. repeat split.
  - destruct (negb (AppOld.ok status)); repeat split.
Qed.

(** A response outside 200..299 is a failure whose message is built from
    status and status text alone; its body is never looked at, and no result
    is shown. *)
Theorem bad_status_ignores_body (s : AppOld.State) (p g : File)
    (show : JS.number -> string) (status : Z) (text : string)
    (body body' : AppOld.BodyOutcome) :
  AppOld.personImage s = Some p ->
  AppOld.garmentImage s = Some g ->
  AppOld.ok status = false ->
  let answer b := AppOld.mkEnv true true (AppOld.FetchResponse status text b) show in
  submit Old (answer body) s = submit Old (answer body') s
  /\ presented Old (submit Old (answer body) s)
     = [TryFailure ("네트워크 오류: HTTP " ++ show (inject_Z status) ++ ": " ++ text)]
  /\ AppOld.resultImage (run_state (submit Old (answer body) s)) = None
  /\ AppOld.loading (run_state (submit Old (answer body) s)) = false.
Proof.
  intros Hp Hg Hok. cbn [submit]. unfold AppOld.handleTryon.
  rewrite Hp, Hg. cbn [AppOld.person_readable AppOld.garment_readable
                        AppOld.fetched AppOld.show_number negb].
  rewrite Hok. cbn [negb].
  repeat split.
Qed.

Lemma bad_status_ignores_body_witness :
  presented Old
    (submit Old (AppOld.mkEnv true true
                   (AppOld.FetchResponse 500 "Internal Server Error"
                      (AppOld.JsonBody old_good)) plain_number) both_old)
  = [TryFailure "네트워크 오류: HTTP n: Internal Server Error"].
Proof.
  pose proof (bad_status_ignores_body both_old sample_jpeg sample_png
                plain_number 500 "Internal Server Error"
                (AppOld.JsonBody old_good) (AppOld.JsonBody old_good)
                eq_refl eq_refl eq_refl) as (_ & H & _).
  exact H.
Defined.

(** After a submit that was answered with a success and an image the screen
    is in its comparison step: the submit button is gone, so a further click
    sends nothing and changes nothing until [resetAll]. *)
Theorem success_ends_upload_step (env env' : AppOld.Env) (s : AppOld.State)
    (p g : File) (status : Z) (text : string)
    (data : AppOld.VirtualTryonResponse) :
  AppOld.personImage s = Some p ->
  AppOld.garmentImage s = Some g ->
  AppOld.person_readable env && AppOld.garment_readable env = true ->
  AppOld.fetched env = AppOld.FetchResponse status text (AppOld.JsonBody data) ->
  AppOld.ok status = true ->
  AppOld.success data && JS.truthy_str (AppOld.result_image data) = true ->
  let after := run_state (submit Old env s) in
  AppOld.showComparison after = true
  /\ AppOld.resultImage after = AppOld.result_image data
  /\ click Old env' after = Settled after []
  /\ AppOld.submit_rendered (AppOld.resetAll after) = true.
Proof.
  intros Hp Hg Hr Hf Hok Hd. cbn [submit click]. unfold AppOld.handleTryon.
  rewrite Hp, Hg. apply andb_true_iff in Hr as [-> ->]. cbn [negb].
  rewrite Hf, Hok. cbn [negb].
  destruct (on_data_success (AppOld.show_number env) data
    [PostTryon (AppOld.request (fileToBase64 p) (fileToBase64 g))]
    (AppOld.setMessage "이미지 처리 중..."
       (AppOld.setShowComparison false (AppOld.setResultImage None
          (AppOld.setMessage "가상 피팅을 시작합니다..."
             (AppOld.setError "" (AppOld.setLoading true s)))))) Hd)
    as [msg ->].
  repeat split.
Qed.

Lemma success_ends_upload_step_witness :
  click Old (old_answers old_good)
    (run_state (submit Old (old_answers old_good) both_old))
  = Settled (run_state (submit Old (old_answers old_good) both_old)) [].
Proof.
  pose proof (success_ends_upload_step (old_answers old_good)
                (old_answers old_good) both_old sample_jpeg sample_png
                200 "OK" old_good eq_refl eq_refl eq_refl eq_refl eq_refl
                eq_refl) as (_ & _ & H & _).
  exact H.
Defined.

Lemma resetAll_idle (s : AppOld.State) :
  AppOld.loading s = false -> AppOld.resetAll s = AppOld.initial.
Proof.
  destruct s. cbn. intros ->. reflexivity.
Qed.

(** [resetAll] after any settled submit, successful or not, gives back the
    initial state of the screen, provided nothing was loading before. *)
Theorem reset_after_submit (env : AppOld.Env) (s : AppOld.State) :
  AppOld.loading s = false ->
  settled (AppOld.handleTryon env s) = true ->
  AppOld.resetAll (run_state (AppOld.handleTryon env s)) = AppOld.initial.
Proof.
  intros Hl Hs. apply resetAll_idle.
  destruct (AppOld.personImage s) as [p|] eqn:Hp;
    [destruct (AppOld.garmentImage s) as [g|] eqn:Hg|].
  - destruct (AppOld.person_readable env && AppOld.garment_readable env) eqn:Hr.
    + apply (old_submit_log env s p g Hp Hg Hr).
    + exfalso. revert Hs. unfold AppOld.handleTryon. rewrite Hp, Hg.
      destruct (AppOld.person_readable env); [|discriminate].
      destruct (AppOld.garment_readable env); discriminate.
  - unfold AppOld.handleTryon. rewrite Hp, Hg. exact Hl.
  - unfold AppOld.handleTryon. rewrite Hp. exact Hl.
Qed.

Lemma reset_after_submit_witness :
  AppOld.resetAll (run_state (AppOld.handleTryon (old_answers old_good) both_old))
  = AppOld.initial.
Proof.
  exact (reset_after_submit (old_answers old_good) both_old eq_refl eq_refl).
Defined.

(** Choosing a person and a garment file on the upload step, from whatever
    was selected before, shows their data URLs as previews and makes the
    next click send exactly one request, for these two files. A change
    event without a file changes nothing, and deleting either file makes
    the click inert again. *)
Theorem select_then_submit (env : AppOld.Env) (s : AppOld.State)
    (f g : File) (fs gs : list File) :
  AppOld.showComparison s = false ->
  AppOld.loading s = false ->
  AppOld.person_readable env && AppOld.garment_readable env = true ->
  let chosen :=
    AppOld.garmentPreview_onload g
      (AppOld.handleGarmentImageChange (g :: gs)
         (AppOld.personPreview_onload f
            (AppOld.handlePersonImageChange (f :: fs) s))) in
  AppOld.personImagePreview chosen = Some (readAsDataURL f)
  /\ AppOld.garmentImagePreview chosen = Some (readAsDataURL g)
  /\ run_log (click Old env chosen)
     = [PostTryon (AppOld.request (fileToBase64 f) (fileToBase64 g))]
  /\ AppOld.handlePersonImageChange [] chosen = chosen
  /\ AppOld.handleGarmentImageChange [] chosen = chosen
  /\ click Old env (AppOld.deletePerson chosen)
     = Settled (AppOld.deletePerson chosen) []
  /\ click Old env (AppOld.deleteGarment chosen)
     = Settled (AppOld.deleteGarment chosen) [].
Proof.
  intros Hc Hl Hr chosen.
  assert (Hclick : click Old env chosen = AppOld.handleTryon env chosen).
  { cbn [click]. unfold AppOld.clickSubmit, AppOld.submit_rendered,
      AppOld.submit_disabled. subst chosen. cbn. rewrite Hc, Hl. reflexivity. }
  split; [reflexivity|]. split; [reflexivity|]. split.
  - rewrite Hclick.
    apply (old_submit_log env chosen f g eq_refl eq_refl Hr).
  - split; [reflexivity|]. split; [reflexivity|].
    cbn [click]. unfold AppOld.clickSubmit, AppOld.submit_disabled.
    split; subst chosen; cbn; rewrite ?andb_false_r; reflexivity.
Qed.

Lemma select_then_submit_witness :
  run_log (click Old (old_answers old_good)
             (AppOld.garmentPreview_onload sample_png
                (AppOld.handleGarmentImageChange [sample_png]
                   (AppOld.personPreview_onload sample_jpeg
                      (AppOld.handlePersonImageChange [sample_jpeg]
                         AppOld.initial)))))
  = [PostTryon (AppOld.request (fileToBase64 sample_jpeg)
                               (fileToBase64 sample_png))].
Proof.
  pose proof (select_then_submit (old_answers old_good) AppOld.initial
                sample_jpeg sample_png [] [] eq_refl eq_refl eq_refl)
    as (_ & _ & H & _).
  exact H.
Defined.

(** ** The session-aware screen: quota, token, session restore *)

Lemma posts_app (a b : list Effect) :
  length (posts (a ++ b)) = (length (posts a) + length (posts b))%nat.
Proof. unfold posts. rewrite List.filter_app, List.length_app. reflexivity. Qed.

(** One successful click in the main view: inert when the gate blocks,
    otherwise one request and one more use on the counter. *)
Lemma click_counts (env : Axios.Env) (s : AuthApp.State) (u : AuthApp.User)
    (pl : AuthApp.PricingPlan) :
  AuthApp.ready u pl s ->
  AuthApp.succeeds env = true ->
  (AuthApp.usage_blocked s = true -> AuthApp.clickSubmit env s = (s, []))
  /\ (AuthApp.usage_blocked s = false ->
      AuthApp.ready (AuthApp.used u) pl (fst (AuthApp.clickSubmit env s))
      /\ length (posts (snd (AuthApp.clickSubmit env s))) = 1%nat).
Proof.
  intros (Hv & Hp & Hg & Hl & Hu & Hpl) Hs.
  unfold AuthApp.clickSubmit, AuthApp.submit_rendered, AuthApp.submit_disabled.
  rewrite Hv, Hp, Hg, Hl. cbn [negb orb andb].
  split; intros Hr; rewrite Hr; [reflexivity|].
  cbn [negb].
  unfold AuthApp.handleVirtualTryon.
  destruct (AuthApp.personImage s) as [p|] eqn:Ep; [|discriminate].
  destruct (AuthApp.garmentImage s) as [g|] eqn:Eg; [|discriminate].
  unfold AuthApp.handleVirtualTryon_finish, AuthApp.succeeds in *.
  destruct (Axios.person_readable env); [|discriminate].
  destruct (Axios.garment_readable env); [|discriminate].
  destruct (Axios.posted env) as [data|err]; [|discriminate].
  cbn [andb negb] in *. rewrite Hs, Hu.
  unfold AuthApp.ready. cbn -[JS.add]. rewrite Ep, Eg.
  repeat split; assumption.
Qed.

(** Clicking the submit button again and again, every call answered with a
    success, the counts being non-negative safe integers: on a limited plan
    with the usage within the limit exactly [daily_limit - daily_usage]
    requests go out, then the gate holds; on an unlimited plan all of them
    go out. The local counter rises by one per request sent. *)
Theorem quota_enforced (envs : list Axios.Env) (s : AuthApp.State)
    (u : AuthApp.User) (pl : AuthApp.PricingPlan) :
  AuthApp.ready u pl s ->
  0 <= AuthApp.daily_usage u ->
  (AuthApp.daily_limit pl = -1
   /\ AuthApp.daily_usage u + Z.of_nat (length envs) < 2 ^ 53)
  \/ (AuthApp.daily_limit pl <> -1
      /\ AuthApp.daily_usage u <= AuthApp.daily_limit pl
      /\ JS.safe (AuthApp.daily_limit pl)) ->
  forallb AuthApp.succeeds envs = true ->
  exists u',
    AuthApp.user (fst (AuthApp.clicks envs s)) = Some u'
    /\ AuthApp.daily_usage u'
       = AuthApp.daily_usage u + AuthApp.allowed pl u (length envs)
    /\ Z.of_nat (length (posts (snd (AuthApp.clicks envs s))))
       = AuthApp.allowed pl u (length envs).
Proof.
  revert s u. induction envs as [|env envs IH]; intros s u R H0 Hq Hs.
  - exists u. cbn [AuthApp.clicks fst snd length posts List.filter].
    split; [apply R|]. unfold AuthApp.allowed.
    destruct Hq as [[Hl _] | (Hl & Hle & _)].
    + replace (AuthApp.daily_limit pl =? -1) with true
        by (rewrite Hl; reflexivity).
      split; cbn; lia.
    + apply Z.eqb_neq in Hl. rewrite Hl. split; cbn; lia.
  - cbn [forallb] in Hs. apply andb_true_iff in Hs as [Hs Hss].
    destruct (click_counts env s u pl R Hs) as [Hblocked Hopen].
    pose proof R as (_ & _ & _ & _ & Hu & Hpl).
    pose proof (remaining_of_plan s u pl Hu Hpl) as Hrem.
    cbn [AuthApp.clicks]. cbn [length] in Hq.
    destruct Hq as [[Hl Hb] | (Hl & Hle & Hsafe)].
    + (* unlimited *)
      assert (Hl' : (AuthApp.daily_limit pl =? -1) = true)
        by (rewrite Hl; reflexivity).
      assert (Hopen' : AuthApp.usage_blocked s = false).
      { unfold AuthApp.usage_blocked. rewrite Hrem, Hl'. reflexivity. }
      destruct (Hopen Hopen') as [R' Hone].
      assert (Hused : AuthApp.used u = bump u)
        by (apply used_safe; unfold JS.safe; lia).
      rewrite Hused in R'.
      destruct (AuthApp.clickSubmit env s) as [s1 l1]. cbn [fst snd] in *.
      destruct (IH s1 (bump u) R') as (u' & Hu' & Hd & Hn);
        [cbn; lia | left; split; [exact Hl | cbn; lia] | exact Hss |].
      destruct (AuthApp.clicks envs s1) as [s2 l2]. cbn [fst snd] in *.
      exists u'. split; [exact Hu'|].
      rewrite posts_app, Hone.
      unfold AuthApp.allowed in *. cbn [bump AuthApp.daily_usage] in *.
      rewrite Hl' in Hd, Hn |- *. cbn [length]. split; lia.
    + (* limited *)
      pose proof Hl as Hl'. apply Z.eqb_neq in Hl'.
      unfold JS.safe in Hsafe.
      assert (Hgate : AuthApp.usage_blocked s
                      = (AuthApp.daily_limit pl - AuthApp.daily_usage u =? 0)).
      { unfold AuthApp.usage_blocked. rewrite Hrem, Hl'.
        rewrite sub_exact by lia. reflexivity. }
      destruct (AuthApp.daily_limit pl - AuthApp.daily_usage u =? 0) eqn:Hz.
      * apply Z.eqb_eq in Hz. rewrite (Hblocked Hgate).
        destruct (IH s u R H0) as (u' & Hu' & Hd & Hn);
          [right; repeat split; assumption || lia | exact Hss |].
        destruct (AuthApp.clicks envs s) as [s2 l2]. cbn [fst snd] in *.
        exists u'. split; [exact Hu'|].
        unfold AuthApp.allowed in *. rewrite Hl' in *.
        cbn [length app]. split; lia.
      * apply Z.eqb_neq in Hz.
        destruct (Hopen Hgate) as [R' Hone].
        assert (Hused : AuthApp.used u = bump u)
          by (apply used_safe; unfold JS.safe; lia).
        rewrite Hused in R'.
        destruct (AuthApp.clickSubmit env s) as [s1 l1]. cbn [fst snd] in *.
        destruct (IH s1 (bump u) R') as (u' & Hu' & Hd & Hn);
          [cbn; lia
          | right; split; [exact Hl | split; [cbn; lia | unfold JS.safe; lia]]
          | exact Hss |].
        destruct (AuthApp.clicks envs s1) as [s2 l2]. cbn [fst snd] in *.
        exists u'. split; [exact Hu'|].
        rewrite posts_app, Hone.
        unfold AuthApp.allowed in *. cbn [bump AuthApp.daily_usage] in *.
        rewrite Hl' in *. cbn [length]. split; lia.
Qed.

Lemma quota_enforced_witness :
  exists u',
    AuthApp.user (fst (AuthApp.clicks
                         [answers good_response; answers good_response;
                          answers good_response; answers good_response]
                         (both_session 1 None false))) = Some u'
    /\ AuthApp.daily_usage u' = 1 + 2
    /\ Z.of_nat (length (posts (snd (AuthApp.clicks
                         [answers good_response; answers good_response;
                          answers good_response; answers good_response]
                         (both_session 1 None false))))) = 2.
Proof.
  assert (R : AuthApp.ready (alice 1) free_plan (both_session 1 None false))
    by (repeat split).
  assert (H0 : 0 <= AuthApp.daily_usage (alice 1)) by discriminate.
  assert (Hq : (AuthApp.daily_limit free_plan = -1
                /\ AuthApp.daily_usage (alice 1) + Z.of_nat 4 < 2 ^ 53)
               \/ (AuthApp.daily_limit free_plan <> -1
                   /\ AuthApp.daily_usage (alice 1)
                      <= AuthApp.daily_limit free_plan
                   /\ JS.safe (AuthApp.daily_limit free_plan))).
  { right. split; [discriminate|]. split; [discriminate|].
    split; reflexivity. }
  exact (quota_enforced [answers good_response; answers good_response;
                         answers good_response; answers good_response]
           (both_session 1 None false) (alice 1) free_plan R H0 Hq eq_refl).
Defined.

(** From login (or register) to logout: with a non-empty access token in
    the answer, the try-on request that follows carries [Bearer <token>];
    after logout the request of the same page carries no [Authorization]
    header at all. *)
Theorem token_round_trip (s : AuthApp.State) (email password plan : string)
    (data : AuthApp.AuthResponse) (env : Axios.Env) (p g : File) :
  String.eqb (AuthApp.access_token data) "" = false ->
  Axios.person_readable env && Axios.garment_readable env = true ->
  let choose s0 :=
    AuthApp.setGarmentImage (Some g) (AuthApp.setPersonImage (Some p) s0) in
  let bearer := Some ("Bearer " ++ AuthApp.access_token data) in
  let s1 := fst (AuthApp.handleLogin email password (Axios.Resolved data) s) in
  let s2 := fst (AuthApp.handleRegister email password plan
                   (Axios.Resolved data) s) in
  sent_authorizations (snd (AuthApp.handleVirtualTryon env (choose s1)))
  = [bearer]
  /\ sent_authorizations (snd (AuthApp.handleVirtualTryon env (choose s2)))
     = [bearer]
  /\ sent_authorizations
       (snd (AuthApp.handleVirtualTryon env (choose (AuthApp.handleLogout s1))))
     = [None]
  /\ AuthApp.mount (AuthApp.handleLogout s1)
     = [GetJson (AuthApp.API_BASE ++ "/pricing") None].
Proof.
  intros Ht Hr. apply andb_true_iff in Hr as [Hrp Hrg].
  assert (Hin : forall m : gmap string string,
            match <["token" := AuthApp.access_token data]> m !! "token" with
            | Some token =>
                if String.eqb token "" then None else Some ("Bearer " ++ token)
            | None => None
            end = Some ("Bearer " ++ AuthApp.access_token data)).
  { intros m. rewrite lookup_insert_eq, Ht. reflexivity. }
  assert (Hout : forall m : gmap string string,
            delete "token" m !! "token" = None)
    by (intros m; apply lookup_delete_eq).
  cbn zeta. unfold AuthApp.handleVirtualTryon, AuthApp.handleVirtualTryon_finish,
    AuthApp.request, AuthApp.authorization, AuthApp.mount,
    AuthApp.authorization.
  cbn -[String.append lookup insert delete]. rewrite Hrp, Hrg.
  cbn -[String.append lookup insert delete].
  rewrite !Hin, !Hout.
  repeat split; destruct (Axios.posted env) as [d|err];
    try destruct (Axios.success d); try destruct (AuthApp.user s);
    reflexivity.
Qed.

Lemma token_round_trip_witness :
  sent_authorizations
    (snd (AuthApp.handleVirtualTryon (answers good_response)
            (AuthApp.setGarmentImage (Some sample_png)
               (AuthApp.setPersonImage (Some sample_jpeg)
                  (fst (AuthApp.handleLogin "bob@example.com" "pw"
                          (Axios.Resolved server_says_free)
                          (AuthApp.initial ∅)))))))
  = [Some "Bearer tok-new"].
Proof.
  exact (proj1 (token_round_trip (AuthApp.initial ∅) "bob@example.com" "pw"
                  "free" server_says_free (answers good_response)
                  sample_jpeg sample_png eq_refl eq_refl)).
Defined.

(** Restoring a session on mount. The [/auth/me] probe goes out exactly when
    a non-empty token is stored, with that token as bearer, next to the
    request for the plans. An answer to the probe opens the main view for
    the user it names; a rejected probe changes nothing: the page stays
    where it was and the token stays in storage. *)
Theorem session_restore (s : AuthApp.State) :
  (AuthApp.authorization s = None ->
   AuthApp.mount s = [GetJson (AuthApp.API_BASE ++ "/pricing") None])
  /\ (forall token,
        AuthApp.localStorage s !! "token" = Some token ->
        String.eqb token "" = false ->
        AuthApp.mount s
        = [GetJson (AuthApp.API_BASE ++ "/auth/me") (Some ("Bearer " ++ token));
           GetJson (AuthApp.API_BASE ++ "/pricing") (Some ("Bearer " ++ token))])
  /\ (forall me,
        let s' := AuthApp.fetchCurrentUser_settle (Axios.Resolved me) s in
        AuthApp.currentView s' = AuthApp.main
        /\ AuthApp.user s' = Some me
        /\ AuthApp.localStorage s' = AuthApp.localStorage s)
  /\ (forall err,
        AuthApp.fetchCurrentUser_settle (Axios.Rejected err) s = s).
Proof.
  unfold AuthApp.mount, AuthApp.fetchCurrentUser_request, AuthApp.authorization.
  split; [|split; [|split]].
  - destruct (AuthApp.localStorage s !! "token") as [t|]; [|reflexivity].
    destruct (String.eqb t ""); [reflexivity | discriminate].
  - intros token -> ->. reflexivity.
  - intros me. repeat split.
  - reflexivity.
Qed.

Lemma session_restore_witness :
  AuthApp.mount (AuthApp.initial {["token" := "tok-alice"]})
  = [GetJson (AuthApp.API_BASE ++ "/auth/me") (Some "Bearer tok-alice");
     GetJson (AuthApp.API_BASE ++ "/pricing") (Some "Bearer tok-alice")].
Proof.
  pose proof (session_restore (AuthApp.initial {["token" := "tok-alice"]}))
    as (_ & H & _).
  exact (H "tok-alice" eq_refl eq_refl).
Defined.

(** A try-on still awaiting its answer when the user logs out: when the
    success arrives, the handler writes the result into the cleared state
    and puts back the user its closure holds, with [daily_usage + 1] as the
    double sum gives it (one more use for every safe integer count), while
    the view stays on login and no token is stored. The result is still in
    place after the next login. *)
Theorem response_after_logout (s : AuthApp.State) (p g : File)
    (u : AuthApp.User) (env : Axios.Env) (data : Axios.VirtualTryonResponse)
    (email password : string) (auth : AuthApp.AuthResponse) :
  Axios.person_readable env && Axios.garment_readable env = true ->
  Axios.posted env = Axios.Resolved data ->
  Axios.success data = true ->
  let late := fst (AuthApp.handleVirtualTryon_finish p g (Some u) env
                     (AuthApp.handleLogout s)) in
  let next := fst (AuthApp.handleLogin email password (Axios.Resolved auth) late) in
  AuthApp.user late = Some (AuthApp.used u)
  /\ (JS.safe (AuthApp.daily_usage u) -> AuthApp.user late = Some (bump u))
  /\ AuthApp.result late = Some (JS.or_str (Axios.result_image data) "")
  /\ AuthApp.currentView late = AuthApp.login
  /\ AuthApp.localStorage late !! "token" = None
  /\ AuthApp.result next = AuthApp.result late
  /\ AuthApp.user next
     = Some (AuthApp.mkUser 0 email (AuthApp.auth_plan auth)
               (AuthApp.auth_daily_usage auth)).
Proof.
  intros Hr Hp Hs. apply andb_true_iff in Hr as [Hrp Hrg].
  unfold AuthApp.handleVirtualTryon_finish.
  rewrite Hrp, Hrg, Hp, Hs. cbn -[lookup delete insert JS.add].
  split; [reflexivity|]. split; [intros Hu; rewrite (used_safe u Hu); reflexivity|].
  repeat split. apply lookup_delete_eq.
Qed.

Lemma response_after_logout_witness :
  AuthApp.result
    (fst (AuthApp.handleVirtualTryon_finish sample_jpeg sample_png
            (Some (alice 1)) (answers good_response)
            (AuthApp.handleLogout (both_session 1 None true))))
  = Some "X".
Proof.
  pose proof (response_after_logout (both_session 1 None true) sample_jpeg
                sample_png (alice 1) (answers good_response) good_response
                "bob@example.com" "pw" server_says_free
                eq_refl eq_refl eq_refl) as (_ & _ & H & _).
  exact H.
Defined.

(** ** The timer-driven screen as a whole *)

Section Reachable.
Import AutoTryon.

Lemma rerender_inflight old pending s calls l :
  inflight (rerender old pending s calls l) = calls.
Proof. unfold rerender. destruct (useEffect _ _ _). reflexivity. Qed.

Lemma launch_fields (p g : File) (old : Sys) pending prefix :
  view (launch (Some p) (Some g) old pending prefix)
  = setHasExecuted true (setResult None (setProgress 0
      (setLoading true (view old))))
  /\ inflight (launch (Some p) (Some g) old pending prefix)
     = (inflight old ++ [(p, g)])%list
  /\ log (launch (Some p) (Some g) old pending prefix)
     = (log old ++ (prefix ++ [])
        ++ snd (useEffect (view old) pending
                  (setHasExecuted true (setResult None (setProgress 0
                     (setLoading true (view old)))))))%list.
Proof.
  unfold launch, handleVirtualTryon_start.
  rewrite rerender_view, rerender_inflight, rerender_log. repeat split.
Qed.

(** What the second half of the handler does to the state. *)
Lemma finish_fields p g env (s : State) :
  let s1 := fst (handleVirtualTryon_finish p g env s) in
  AutoTryon.loading s1 = false
  /\ hasExecuted s1 = hasExecuted s
  /\ personFile s1 = personFile s
  /\ garmentFile s1 = garmentFile s
  /\ ((AutoTryon.result s1 = AutoTryon.result s /\ progress s1 = progress s)
      \/ (exists img, AutoTryon.result s1 = Some img
                      /\ String.eqb img "" = false /\ progress s1 = 100)).
Proof.
  unfold handleVirtualTryon_finish.
  destruct (negb (Axios.person_readable env && Axios.garment_readable env));
    [repeat split; left; split; reflexivity|].
  destruct (Axios.posted env) as [data|err];
    [|repeat split; left; split; reflexivity].
  destruct (Axios.success data && JS.truthy_str (Axios.result_image data)) eqn:E;
    [|repeat split; left; split; reflexivity].
  apply andb_true_iff in E as [_ E].
  destruct (Axios.result_image data) as [img|]; [|discriminate].
  cbn in E. apply negb_true_iff in E.
  repeat split. right. exists img. repeat split. exact E.
Qed.

Lemma run_button_files (s : State) :
  run_button s = true ->
  AutoTryon.loading s = false /\ hasExecuted s = false
  /\ exists p g, personFile s = Some p /\ garmentFile s = Some g.
Proof.
  unfold run_button. intros B.
  apply andb_true_iff in B as [B Bg]. apply andb_true_iff in B as [B Bp].
  apply andb_true_iff in B as [Bl Bx].
  apply negb_true_iff in Bl. apply negb_true_iff in Bx.
  destruct (personFile s) as [p|]; [|discriminate].
  destruct (garmentFile s) as [g|]; [|discriminate].
  repeat split; try assumption. exists p, g. split; reflexivity.
Qed.

Lemma launch_wellformed (p g : File) (sys : Sys) pending prefix :
  wellformed sys ->
  AutoTryon.loading (view sys) = false ->
  wellformed (launch (Some p) (Some g) sys pending prefix).
Proof.
  intros (T & N & L & R) Hl.
  destruct (launch_shape p g sys pending prefix Hl) as (T' & _ & _).
  destruct (launch_fields p g sys pending prefix) as (Hv & Hi & _).
  unfold wellformed. rewrite Hv, Hi. split; [exact T'|].
  rewrite Hl in N. rewrite List.length_app, N. cbn.
  repeat split. left. split; reflexivity.
Qed.

Lemma step_wellformed (sys : Sys) (e : Event) :
  wellformed sys -> wellformed (step sys e).
Proof.
  intros W. pose proof W as (T & N & L & R).
  pose proof (step_timer_current sys e T) as T'.
  destruct e as [f|f| | | |env|opened]; cbn [step] in *.
  - unfold wellformed. rewrite rerender_view, rerender_inflight in *.
    split; [exact T'|]. cbn. repeat split; try assumption; apply L; assumption.
  - unfold wellformed. rewrite rerender_view, rerender_inflight in *.
    split; [exact T'|]. cbn. repeat split; try assumption; apply L; assumption.
  - destruct (run_button (view sys)) eqn:B; [|exact W].
    destruct (run_button_files _ B) as (Hl & _ & p & g & Hp & Hg).
    rewrite Hp, Hg. apply launch_wellformed; assumption.
  - destruct (reset_button (view sys)) eqn:B; [|exact W].
    unfold reset_button in B. apply andb_true_iff in B as [Bl _].
    apply negb_true_iff in Bl.
    unfold wellformed. rewrite rerender_view, rerender_inflight in *.
    split; [exact T'|]. cbn. rewrite Bl in *.
    repeat split; try assumption; try discriminate. left. split; reflexivity.
  - destruct (timer sys) as [[p g]|] eqn:E; [|exact W].
    unfold timer_current in T. rewrite E in T. symmetry in T.
    apply arm_sound in T as (_ & _ & Hl & _).
    apply launch_wellformed; assumption.
  - destruct (inflight sys) as [|[p g] rest] eqn:E; [exact W|].
    destruct (AutoTryon.loading (view sys)) eqn:Hl;
      [|cbn in N; discriminate N].
    destruct rest; [|cbn in N; discriminate N].
    destruct (L eq_refl) as [Hx Hres].
    pose proof (finish_fields p g env (view sys)) as (F1 & F2 & _ & _ & F5).
    destruct (handleVirtualTryon_finish p g env (view sys)) as [s1 l1].
    cbn [fst] in *.
    unfold wellformed. rewrite rerender_view, rerender_inflight in *.
    split; [exact T'|]. rewrite F1. split; [reflexivity|].
    split; [discriminate|].
    destruct F5 as [[Fr Fp] | (img & Fr & Fi & Fp)].
    + rewrite Fr, Fp, F2.
      destruct R as [R | (img & R1 & _)]; [left; exact R|].
      rewrite Hres in R1. discriminate R1.
    + right. exists img. rewrite F2. repeat split; assumption.
  - destruct (popups sys) as [|page rest]; [exact W|].
    unfold wellformed. cbn [view inflight]. repeat split; try assumption;
      apply L; assumption.
Qed.

Lemma run_wellformed (events : list Event) : wellformed (run events).
Proof.
  unfold run.
  assert (W : wellformed boot).
  { unfold wellformed. cbn. repeat split; try discriminate.
    left. split; reflexivity. }
  revert W. generalize boot.
  induction events as [|e events IH]; intros sys W; [exact W|].
  cbn [fold_left]. apply IH, step_wellformed, W.
Qed.

End Reachable.

(** Single flight. In every state the timer-driven screen can reach at most
    one call is in flight, and exactly while [loading] is set; while it is,
    the run button, the reset button and the timer do nothing, so no second
    call can start. *)
Theorem single_flight (events : list AutoTryon.Event) :
  let sys := AutoTryon.run events in
  (length (AutoTryon.inflight sys) <= 1)%nat
  /\ (AutoTryon.loading (AutoTryon.view sys) = true
      <-> AutoTryon.inflight sys <> [])
  /\ (AutoTryon.loading (AutoTryon.view sys) = true ->
      AutoTryon.step sys AutoTryon.ClickRun = sys
      /\ AutoTryon.step sys AutoTryon.ClickReset = sys
      /\ AutoTryon.step sys AutoTryon.TimerFire = sys).
Proof.
  cbn zeta. destruct (run_wellformed events) as (T & N & _ & _).
  destruct (AutoTryon.loading (AutoTryon.view (AutoTryon.run events))) eqn:Hl.
  - split; [lia|]. split.
    + split; [|reflexivity]. intros _ E. rewrite E in N. discriminate N.
    + intros _. cbn [AutoTryon.step].
      unfold AutoTryon.run_button, AutoTryon.reset_button. rewrite Hl.
      cbn [negb andb]. split; [reflexivity|]. split; [reflexivity|].
      unfold AutoTryon.timer_current, AutoTryon.arm in T. rewrite Hl in T.
      rewrite T.
      destruct (AutoTryon.personFile _); [|reflexivity].
      destruct (AutoTryon.garmentFile _); reflexivity.
  - split; [lia|]. split; [|discriminate].
    split; [discriminate|]. intros E.
    destruct (AutoTryon.inflight (AutoTryon.run events)); [contradiction|].
    discriminate N.
Qed.

Lemma single_flight_witness :
  AutoTryon.step
    (AutoTryon.run [AutoTryon.SelectPerson (Some sample_jpeg);
                    AutoTryon.SelectGarment (Some sample_png);
                    AutoTryon.TimerFire]) AutoTryon.ClickRun
  = AutoTryon.run [AutoTryon.SelectPerson (Some sample_jpeg);
                   AutoTryon.SelectGarment (Some sample_png);
                   AutoTryon.TimerFire].
Proof.
  pose proof (single_flight [AutoTryon.SelectPerson (Some sample_jpeg);
                             AutoTryon.SelectGarment (Some sample_png);
                             AutoTryon.TimerFire]) as (_ & _ & H).
  exact (proj1 (H eq_refl)).
Defined.

(** Result and progress go together. In every reachable state either no
    result is held and the progress is 0, or a non-empty result image is
    held, the progress is 100, the latch is set and nothing is loading. *)
Theorem result_and_progress (events : list AutoTryon.Event) :
  let s := AutoTryon.view (AutoTryon.run events) in
  (AutoTryon.result s = None /\ AutoTryon.progress s = 0)
  \/ (exists img,
        AutoTryon.result s = Some img
        /\ String.eqb img "" = false
        /\ AutoTryon.progress s = 100
        /\ AutoTryon.hasExecuted s = true
        /\ AutoTryon.loading s = false).
Proof.
  cbn zeta. destruct (run_wellformed events) as (_ & _ & L & R).
  destruct R as [R | (img & R1 & R2 & R3 & R4)]; [left; exact R|].
  right. exists img. repeat split; try assumption.
  destruct (AutoTryon.loading (AutoTryon.view (AutoTryon.run events)));
    [|reflexivity].
  destruct (L eq_refl) as [_ Hn]. rewrite Hn in R1. discriminate R1.
Qed.

(** The auto-trigger is never missed: in every reachable state a timer is
    pending for the pair on screen as soon as both files are selected,
    nothing is loading and the latch is open. *)
Theorem timer_pending (events : list AutoTryon.Event) (p g : File) :
  AutoTryon.personFile (AutoTryon.view (AutoTryon.run events)) = Some p ->
  AutoTryon.garmentFile (AutoTryon.view (AutoTryon.run events)) = Some g ->
  AutoTryon.loading (AutoTryon.view (AutoTryon.run events)) = false ->
  AutoTryon.hasExecuted (AutoTryon.view (AutoTryon.run events)) = false ->
  AutoTryon.timer (AutoTryon.run events) = Some (p, g).
Proof.
  intros Hp Hg Hl Hx. destruct (run_wellformed events) as (T & _).
  unfold AutoTryon.timer_current in T. rewrite T.
  unfold AutoTryon.arm. rewrite Hp, Hg, Hl, Hx. reflexivity.
Qed.

Lemma timer_pending_witness :
  AutoTryon.timer (AutoTryon.run [AutoTryon.SelectGarment (Some sample_png);
                                  AutoTryon.SelectPerson (Some sample_jpeg)])
  = Some (sample_jpeg, sample_png).
Proof.
  exact (timer_pending [AutoTryon.SelectGarment (Some sample_png);
                        AutoTryon.SelectPerson (Some sample_jpeg)]
           sample_jpeg sample_png eq_refl eq_refl eq_refl eq_refl).
Defined.

(** The reset button, whenever it is on screen, brings the screen back to
    how it started: the initial state, no auto-trigger timer pending, no
    call in flight. The one thing it does not clear is a 500 ms result-window
    timeout still pending from the run before: that stays, and still opens
    its window when it fires. *)
Theorem reset_restores (events : list AutoTryon.Event) :
  AutoTryon.reset_button (AutoTryon.view (AutoTryon.run events)) = true ->
  AutoTryon.step (AutoTryon.run events) AutoTryon.ClickReset
  = AutoTryon.mkSys AutoTryon.initial None []
      (AutoTryon.popups (AutoTryon.run events))
      (AutoTryon.log (AutoTryon.run events))
  /\ forall opened,
       AutoTryon.log
         (AutoTryon.step
            (AutoTryon.step (AutoTryon.run events) AutoTryon.ClickReset)
            (AutoTryon.PopupFire opened))
       = (AutoTryon.log (AutoTryon.run events)
          ++ match AutoTryon.popups (AutoTryon.run events) with
             | page :: _ => AutoTryon.openResultWindow page opened
             | [] => []
             end)%list.
Proof.
  intros B. destruct (run_wellformed events) as (T & N & _ & _).
  assert (E : AutoTryon.step (AutoTryon.run events) AutoTryon.ClickReset
              = AutoTryon.mkSys AutoTryon.initial None []
                  (AutoTryon.popups (AutoTryon.run events))
                  (AutoTryon.log (AutoTryon.run events))).
  { cbn [AutoTryon.step]. rewrite B.
    unfold AutoTryon.reset_button in B. apply andb_true_iff in B as [Bl Bx].
    apply negb_true_iff in Bl. rewrite Bl in N.
    destruct (AutoTryon.inflight (AutoTryon.run events)) eqn:Ei;
      [|discriminate N].
    assert (Hreset : AutoTryon.handleReset
                       (AutoTryon.view (AutoTryon.run events))
                     = AutoTryon.initial).
    { revert Bl. generalize (AutoTryon.view (AutoTryon.run events)).
      intros [] Hl. cbn in *. rewrite Hl. reflexivity. }
    unfold AutoTryon.rerender, AutoTryon.useEffect. rewrite Hreset.
    destruct (decide (AutoTryon.deps (AutoTryon.view (AutoTryon.run events))
                      = AutoTryon.deps AutoTryon.initial)) as [E|E].
    - exfalso. unfold AutoTryon.deps, AutoTryon.initial in E.
      cbn [AutoTryon.personFile AutoTryon.garmentFile AutoTryon.loading
           AutoTryon.hasExecuted] in E.
      injection E as Ep Eg _ Ex. rewrite Ep, Eg, Ex in Bx. discriminate Bx.
    - cbn [AutoTryon.arm AutoTryon.initial AutoTryon.personFile
           AutoTryon.scheduled flat_map].
      cbn [app]. rewrite !List.app_nil_r. reflexivity. }
  split; [exact E|].
  intros opened. rewrite E. cbn [AutoTryon.step AutoTryon.popups].
  destruct (AutoTryon.popups (AutoTryon.run events)) as [|page rest];
    [cbn; rewrite List.app_nil_r|]; reflexivity.
Qed.

Lemma reset_restores_witness :
  AutoTryon.view
    (AutoTryon.step (AutoTryon.run AutoTryon.replaced_after_run)
       AutoTryon.ClickReset)
  = AutoTryon.initial.
Proof.
  rewrite (proj1 (reset_restores AutoTryon.replaced_after_run eq_refl)).
  reflexivity.
Defined.

Section Requests.
Import AutoTryon.

Lemma useEffect_no_posts before pending after :
  length (posts (snd (useEffect before pending after))) = 0%nat.
Proof.
  unfold useEffect.
  destruct (decide (deps before = deps after)); [reflexivity|].
  unfold arm.
  destruct (personFile after); [|reflexivity].
  destruct (garmentFile after); [|reflexivity].
  destruct (negb (AutoTryon.loading after) && negb (hasExecuted after));
    reflexivity.
Qed.

Lemma finish_posts p g env (s : State) :
  (length (posts (snd (handleVirtualTryon_finish p g env s))) <= 1)%nat.
Proof.
  unfold handleVirtualTryon_finish.
  destruct (negb (Axios.person_readable env && Axios.garment_readable env)).
  { destruct (caught_alert Axios.reader_event) as [m ->]. cbn. lia. }
  destruct (Axios.posted env) as [data|err].
  - destruct (Axios.success data && JS.truthy_str (Axios.result_image data));
      cbn; lia.
  - destruct (caught_alert err) as [m ->]. cbn. lia.
Qed.

Lemma launch_requests (p g : File) (sys : Sys) pending prefix (n : nat) :
  AutoTryon.loading (view sys) = false ->
  hasExecuted (view sys) = false ->
  length (posts prefix) = 0%nat ->
  (length (posts (log sys)) + length (inflight sys)
   <= n + latch (view sys))%nat ->
  (length (posts (log (launch (Some p) (Some g) sys pending prefix)))
   + length (inflight (launch (Some p) (Some g) sys pending prefix))
   <= n + latch (view (launch (Some p) (Some g) sys pending prefix)))%nat.
Proof.
  intros Hl Hx Hpre H.
  destruct (launch_fields p g sys pending prefix) as (Hv & Hi & Hlog).
  rewrite Hv, Hi, Hlog. unfold latch in *. rewrite Hx in H.
  rewrite !posts_app, useEffect_no_posts, Hpre, List.length_app.
  cbn. lia.
Qed.

Lemma step_requests (sys : Sys) (e : Event) (n : nat) :
  wellformed sys ->
  (length (posts (log sys)) + length (inflight sys)
   <= n + latch (view sys))%nat ->
  (length (posts (log (step sys e))) + length (inflight (step sys e))
   <= n + resets [e] + latch (view (step sys e)))%nat.
Proof.
  intros (T & N & L & R) H.
  destruct e as [f|f| | | |env|opened];
    cbn [step resets is_reset List.filter length].
  - rewrite rerender_view, rerender_log, rerender_inflight,
      !posts_app, useEffect_no_posts.
    unfold latch in *. cbn in *. lia.
  - rewrite rerender_view, rerender_log, rerender_inflight,
      !posts_app, useEffect_no_posts.
    unfold latch in *. cbn in *. lia.
  - destruct (run_button (view sys)) eqn:B; [|lia].
    destruct (run_button_files _ B) as (Hl & Hx & p & g & Hp & Hg).
    rewrite Hp, Hg.
    pose proof (launch_requests p g sys (timer sys) [] n Hl Hx eq_refl H).
    lia.
  - destruct (reset_button (view sys)).
    + rewrite rerender_view, rerender_log, rerender_inflight,
        !posts_app, useEffect_no_posts.
      unfold latch in *. cbn.
      destruct (hasExecuted (view sys)); cbn in *; lia.
    + lia.
  - destruct (timer sys) as [[p g]|] eqn:E; [|lia].
    unfold timer_current in T. rewrite E in T. symmetry in T.
    apply arm_sound in T as (_ & _ & Hl & Hx).
    pose proof (launch_requests p g sys None [Console fired_msg] n Hl Hx
                  eq_refl H).
    lia.
  - destruct (inflight sys) as [|[p g] rest] eqn:E;
      [rewrite E; cbn [length] in *; lia|].
    pose proof (finish_posts p g env (view sys)) as Hq.
    pose proof (finish_fields p g env (view sys)) as (_ & F2 & _).
    destruct (handleVirtualTryon_finish p g env (view sys)) as [s1 l1].
    cbn [fst snd] in *.
    rewrite rerender_view, rerender_log, rerender_inflight,
      !posts_app, useEffect_no_posts.
    unfold latch in *. rewrite F2. cbn [length] in *. lia.
  - destruct (popups sys) as [|page rest]; [lia|].
    cbn [log view inflight]. rewrite posts_app.
    replace (length (posts (openResultWindow page opened))) with 0%nat
      by (destruct opened; reflexivity).
    lia.
Qed.

Lemma run_requests (events : list Event) (sys : Sys) (n : nat) :
  wellformed sys ->
  (length (posts (log sys)) + length (inflight sys)
   <= n + latch (view sys))%nat ->
  (length (posts (log (fold_left step events sys)))
   + length (inflight (fold_left step events sys))
   <= n + resets events + latch (view (fold_left step events sys)))%nat.
Proof.
  revert sys n. induction events as [|e events IH]; intros sys n W H.
  - cbn. lia.
  - cbn [fold_left].
    pose proof (IH (step sys e) (n + resets [e])%nat
                  (step_wellformed sys e W) (step_requests sys e n W H)) as H'.
    replace (resets (e :: events)) with (resets [e] + resets events)%nat
      by (unfold resets; cbn; destruct (is_reset e); reflexivity).
    lia.
Qed.

End Requests.

(** Between two resets the timer-driven screen sends at most one try-on
    request, whether the timer or the run button started it: the requests
    sent so far and the call still in flight together number at most one
    more than the presses of reset. *)
Theorem requests_bounded (events : list AutoTryon.Event) :
  (length (posts (AutoTryon.log (AutoTryon.run events)))
   + length (AutoTryon.inflight (AutoTryon.run events))
   <= 1 + AutoTryon.resets events)%nat.
Proof.
  assert (W : AutoTryon.wellformed AutoTryon.boot) by apply (run_wellformed []).
  assert (H0 : (length (posts (AutoTryon.log AutoTryon.boot))
                + length (AutoTryon.inflight AutoTryon.boot)
                <= 0 + AutoTryon.latch (AutoTryon.view AutoTryon.boot))%nat)
    by (cbn; lia).
  pose proof (run_requests events AutoTryon.boot 0 W H0) as H.
  fold (AutoTryon.run events) in H. unfold AutoTryon.latch in H.
  destruct (AutoTryon.hasExecuted (AutoTryon.view (AutoTryon.run events))); lia.
Qed.

(** ** Login, register and what follows *)

(** A login or register attempt sends exactly one credentials request, to
    its own endpoint, register with the chosen plan and login without one.
    The [/auth/me] query follows only after a success, and then already
    carries the new token; after a failure nothing but the alert follows. *)
Theorem auth_requests (s : AuthApp.State) (email password plan : string)
    (data : AuthApp.AuthResponse) (err : Axios.Thrown) :
  String.eqb (AuthApp.access_token data) "" = false ->
  snd (AuthApp.handleLogin email password (Axios.Resolved data) s)
  = [PostAuth (AuthApp.API_BASE ++ "/auth/login") email password None
       (AuthApp.authorization s);
     GetJson (AuthApp.API_BASE ++ "/auth/me")
       (Some ("Bearer " ++ AuthApp.access_token data))]
  /\ snd (AuthApp.handleRegister email password plan (Axios.Resolved data) s)
     = [PostAuth (AuthApp.API_BASE ++ "/auth/register") email password
          (Some plan) (AuthApp.authorization s);
        GetJson (AuthApp.API_BASE ++ "/auth/me")
          (Some ("Bearer " ++ AuthApp.access_token data))]
  /\ snd (AuthApp.handleLogin email password (Axios.Rejected err) s)
     = [PostAuth (AuthApp.API_BASE ++ "/auth/login") email password None
          (AuthApp.authorization s);
        Alert (JS.or_str (Axios.response_detail err) "로그인 실패")]
  /\ snd (AuthApp.handleRegister email password plan (Axios.Rejected err) s)
     = [PostAuth (AuthApp.API_BASE ++ "/auth/register") email password
          (Some plan) (AuthApp.authorization s);
        Alert (JS.or_str (Axios.response_detail err) "회원가입 실패")].
Proof.
  intros Ht.
  unfold AuthApp.handleLogin, AuthApp.handleRegister,
    AuthApp.fetchCurrentUser_request, AuthApp.authorization.
  cbn -[String.append lookup insert]. rewrite !lookup_insert_eq, Ht.
  repeat split.
Qed.

Lemma auth_requests_witness :
  snd (AuthApp.handleLogin "bob@example.com" "pw"
         (Axios.Resolved server_says_free) (AuthApp.initial ∅))
  = [PostAuth (AuthApp.API_BASE ++ "/auth/login") "bob@example.com" "pw" None
       None;
     GetJson (AuthApp.API_BASE ++ "/auth/me") (Some "Bearer tok-new")].
Proof.
  exact (proj1 (auth_requests (AuthApp.initial ∅) "bob@example.com" "pw" "free"
                  server_says_free (Axios.mkThrown None None None) eq_refl)).
Defined.

(** A login that follows a logout opens the main view for the new user with
    the new token stored, no images selected and no result shown, whatever
    the user before had selected or received. *)
Theorem login_after_logout (s : AuthApp.State) (email password : string)
    (data : AuthApp.AuthResponse) :
  let s' := fst (AuthApp.handleLogin email password (Axios.Resolved data)
                   (AuthApp.handleLogout s)) in
  AuthApp.user s'
  = Some (AuthApp.mkUser 0 email (AuthApp.auth_plan data)
            (AuthApp.auth_daily_usage data))
  /\ AuthApp.localStorage s' !! "token" = Some (AuthApp.access_token data)
  /\ AuthApp.currentView s' = AuthApp.main
  /\ AuthApp.personImage s' = None
  /\ AuthApp.garmentImage s' = None
  /\ AuthApp.result s' = None
  /\ AuthApp.shows_result s' = false
  /\ forall env, click Session env s' = Settled s' [].
Proof.
  unfold AuthApp.handleLogin, AuthApp.handleLogout.
  cbn [fst AuthApp.setLoading AuthApp.setStorage AuthApp.setUser
       AuthApp.setCurrentView AuthApp.setGarmentImage AuthApp.setPersonImage
       AuthApp.setResult AuthApp.user AuthApp.loading AuthApp.currentView
       AuthApp.personImage AuthApp.garmentImage AuthApp.result
       AuthApp.processingTime AuthApp.pricingPlans AuthApp.localStorage].
  split; [reflexivity|]. split; [apply lookup_insert_eq|].
  do 5 (split; [reflexivity|]).
  intros env. reflexivity.
Qed.

(** ** The message [App_old] leaves behind *)

(** After a submit that sent its request and failed, for whatever reason,
    the message line of [App_old] still reads that the images are being
    processed, next to the error. *)
Theorem failure_leaves_progress_message (env : AppOld.Env) (s : AppOld.State)
    (p g : File) :
  AppOld.personImage s = Some p ->
  AppOld.garmentImage s = Some g ->
  settled (AppOld.handleTryon env s) = true ->
  AppOld.shows_error (run_state (AppOld.handleTryon env s)) = true ->
  AppOld.st_message (run_state (AppOld.handleTryon env s)) = "이미지 처리 중..."
  /\ AppOld.shows_result (run_state (AppOld.handleTryon env s)) = false.
Proof.
  intros Hp Hg Hs He. revert Hs He. unfold AppOld.handleTryon.
  rewrite Hp, Hg.
  destruct (AppOld.person_readable env); [|discriminate].
  destruct (AppOld.garment_readable env); [|discriminate].
  cbn [negb].
  destruct (AppOld.fetched env) as [m|status text [data|m]];
    [intros _ _; split; reflexivity| |].
  - destruct (negb (AppOld.ok status)); [intros _ _; split; reflexivity|].
    destruct (AppOld.success data && JS.truthy_str (AppOld.result_image data))
      eqn:E.
    + destruct (on_data_success (AppOld.show_number env) data
        [PostTryon (AppOld.request (fileToBase64 p) (fileToBase64 g))]
        (AppOld.setMessage "이미지 처리 중..."
           (AppOld.setShowComparison false (AppOld.setResultImage None
              (AppOld.setMessage "가상 피팅을 시작합니다..."
                 (AppOld.setError "" (AppOld.setLoading true s)))))) E)
        as [msg ->].
      intros _ He. discriminate He.
    + rewrite on_data_failure by exact E. intros _ _. split; reflexivity.
  - destruct (negb (AppOld.ok status)); intros _ _; split; reflexivity.
Qed.

Lemma failure_leaves_progress_message_witness :
  AppOld.st_message
    (run_state (AppOld.handleTryon
                  (AppOld.mkEnv true true (AppOld.FetchRejected (Some "Failed to fetch"))
                     plain_number) both_old))
  = "이미지 처리 중...".
Proof.
  exact (proj1 (failure_leaves_progress_message
                  (AppOld.mkEnv true true
                     (AppOld.FetchRejected (Some "Failed to fetch")) plain_number)
                  both_old sample_jpeg sample_png
                  eq_refl eq_refl eq_refl eq_refl)).
Defined.

(** A run, a reset within the half second, then the timeout: the window of
    the run before still opens over the cleared screen. *)
Remark result_window_after_reset :
  let sys := AutoTryon.run [AutoTryon.SelectPerson (Some sample_jpeg);
                            AutoTryon.SelectGarment (Some sample_png);
                            AutoTryon.TimerFire;
                            AutoTryon.Respond (answers good_response);
                            AutoTryon.ClickReset;
                            AutoTryon.PopupFire true] in
  AutoTryon.view sys = AutoTryon.initial
  /\ AutoTryon.popups sys = []
  /\ In (DocumentWrite (mkResultPage "X" (Some (42 # 10)) (Some (1 # 10))))
       (AutoTryon.log sys).
Proof.
  cbn zeta. split; [reflexivity|]. split; [reflexivity|].
  vm_compute. do 5 right. left. reflexivity.
Qed.
